(** * go-combustion: the advertisement decoder of [combustion.go]

    A shallow embedding of [ExtractCombustionPacket] and of the Go library
    calls it makes ([slices.Reverse], [hex.EncodeToString], slice indexing
    and re-slicing with their run-time bounds checks, [float32] arithmetic),
    followed by the properties of the decoder.

    - a [byte] of the buffer is a [Byte.byte]; once read it is handled as its
      value in [0, 255], a [Z], with the wrap-around of [byte] and [uint16]
      arithmetic written out;
    - the caller's buffer is a Go slice: its [len] visible elements and the
      rest of the backing array up to [cap].  The decoder runs in a state
      and panic monad over that buffer, because it reverses two sub-ranges
      of it in place and because every index expression can panic;
    - a [float32] is a [spec_float] at precision 24 and maximal exponent 128
      (IEEE 754 binary32, round to nearest even). *)

From Stdlib Require Import ZArith List String Ascii Bool Lia.
From Stdlib Require Import Strings.Byte.
From Stdlib Require Import Floats.SpecFloat.
Import ListNotations.

Local Open Scope Z_scope.

(** ** Bytes and fixed-width integers *)

(** The numeric value of a buffer byte. *)
Definition u8 (b : byte) : Z := Z.of_N (Byte.to_N b).

(** Wrap-around of Go's [byte] and [uint16] arithmetic. *)
Definition wrap8 (z : Z) : Z := z mod 256.
Definition wrap16 (z : Z) : Z := z mod 65536.

(** [uint16(x) << n]: the shifted value is truncated to 16 bits. *)
Definition shl16 (x n : Z) : Z := wrap16 (Z.shiftl x n).

(** ** Go slices of bytes, bounds checks and panics *)

Module Slice.

(** A slice whose first element is the first element of its backing
    array: [elems] are the [len] elements reachable by indexing, [spare]
    the elements between [len] and [cap], reachable by re-slicing only. *)
Record t : Type := mk { elems : list byte; spare : list byte }.

Definition len (s : t) : nat := List.length (elems s).
Definition cap (s : t) : nat := (List.length (elems s) + List.length (spare s))%nat.
Definition backing (s : t) : list byte := elems s ++ spare s.

(** The same slice header over an updated backing array. *)
Definition with_backing (s : t) (arr : list byte) : t :=
  mk (firstn (len s) arr) (skipn (len s) arr).

(** The elements [lo .. hi-1] of an array. *)
Definition window (lo hi : nat) (arr : list byte) : list byte :=
  firstn (hi - lo) (skipn lo arr).

(** The array with its elements [lo .. hi-1] in reversed order. *)
Definition reverse_window (lo hi : nat) (arr : list byte) : list byte :=
  firstn lo arr ++ rev (window lo hi arr) ++ skipn hi arr.

End Slice.

(** The two run-time panics of slice expressions:
    "index out of range [i] with length n" and
    "slice bounds out of range [:hi] with capacity c". *)
Inductive panic : Type :=
| IndexOutOfRange (i n : nat)
| SliceBoundsOutOfRange (hi c : nat).

Inductive outcome (A : Type) : Type :=
| Returned (a : A)
| Panicked (e : panic).
Arguments Returned {A} a.
Arguments Panicked {A} e.

(** A Go computation over the caller's buffer: it returns or panics, and in
    both cases leaves the buffer in some state. *)
Definition Go (A : Type) : Type := Slice.t -> outcome A * Slice.t.

Definition ret {A} (a : A) : Go A := fun s => (Returned a, s).

Definition bind {A B} (m : Go A) (k : A -> Go B) : Go B :=
  fun s =>
    match m s with
    | (Returned a, s') => k a s'
    | (Panicked e, s') => (Panicked e, s')
    end.

Arguments ret {A} a s /.
Arguments bind {A B} m k s /.

Notation "x <- m ;; k" := (bind m (fun x => k))
  (at level 61, m at next level, right associativity).
Notation "m ;;; k" := (bind m (fun _ => k))
  (at level 61, right associativity).

(** [rawPacket[i]] *)
Definition index (i : nat) : Go Z :=
  fun s =>
    match nth_error (Slice.elems s) i with
    | Some b => (Returned (u8 b), s)
    | None => (Panicked (IndexOutOfRange i (Slice.len s)), s)
    end.

Arguments index i s /.

(** A sub-slice [rawPacket[lo:hi]] shares the backing array: it is the pair
    of its bounds. *)
Definition subslice : Type := (nat * nat)%type.

(** [rawPacket[lo:hi]], for constants [lo <= hi]: the upper bound is checked
    against the capacity, not the length. *)
Definition reslice (lo hi : nat) : Go subslice :=
  fun s =>
    if (hi <=? Slice.cap s)%nat then (Returned (lo, hi), s)
    else (Panicked (SliceBoundsOutOfRange hi (Slice.cap s)), s).

Arguments reslice lo hi s /.

(** [slices.Reverse(w)]: in place, through the shared backing array. *)
Definition slices_Reverse (w : subslice) : Go unit :=
  fun s =>
    (Returned tt,
     Slice.with_backing s (Slice.reverse_window (fst w) (snd w) (Slice.backing s))).

(** The elements a sub-slice currently denotes. *)
Definition contents (w : subslice) : Go (list byte) :=
  fun s => (Returned (Slice.window (fst w) (snd w) (Slice.backing s)), s).

Arguments contents w s /.

(** ** encoding/hex *)

Module hex.

Definition hextable : string := "0123456789abcdef".

(** [hextable[i]], for [i] in [0, 15] (the two index expressions of
    [Encode] are [v>>4] and [v&0x0f], which never leave that range). *)
Definition digit (i : Z) : ascii :=
  match String.get (Z.to_nat i) hextable with
  | Some c => c
  | None => "000"%char
  end.

(** [dst[j] = hextable[v>>4]; dst[j+1] = hextable[v&0x0f]] for each [v]. *)
Fixpoint EncodeToString (src : list byte) : string :=
  match src with
  | [] => EmptyString
  | v :: rest =>
      String (digit (Z.shiftr (u8 v) 4))
        (String (digit (Z.land (u8 v) 0x0f)) (EncodeToString rest))
  end.

End hex.

(** ** float32 *)

Module float32.

Definition prec : Z := 24.
Definition emax : Z := 128.

Definition t : Type := spec_float.

Definition mul : t -> t -> t := SFmul prec emax.
Definition sub : t -> t -> t := SFsub prec emax.
Definition div : t -> t -> t := SFdiv prec emax.

(** Conversion of an integer, rounded to nearest even. *)
Definition of_Z (z : Z) : t := binary_normalize prec emax z 0 false.

(** The zero value of the type. *)
Definition zero : t := S754_zero false.

(** The constants of [fromRawTemp], converted to [float32] as the
    compiler does: 0.05 is 13421773 * 2^-28, 20.0 is exact. *)
Definition c0_05 : t := S754_finite false 13421773 (-28).
Definition c20 : t := S754_finite false 10485760 (-19).

End float32.

(** ** combustion.go *)

(** [type CombustionProductType byte], with its two declared constants. *)
Definition CombustionProductType : Type := Z.
Definition CombustionUnknownPT : CombustionProductType := 0.
Definition CombustionPredictiveProbePT : CombustionProductType := 1.

(** The product types the comment above the constants lists: 0 to 5. *)
Definition documentedProductType (v : Z) : bool := (0 <=? v) && (v <=? 5).

(** [type CombustionMode byte] *)
Definition CombustionMode : Type := Z.
Definition CombustionModeNormal : CombustionMode := 0.
Definition CombustionModeInstantRead : CombustionMode := 1.
Definition CombustionModeReserved : CombustionMode := 2.
Definition CombustionModeError : CombustionMode := 3.

(** [type CombustionColorID byte] *)
Definition CombustionColorID : Type := Z.
Definition CombustionColorYellow : CombustionColorID := 0.
Definition CombustionColorGrey : CombustionColorID := 1.

Record CombustionPacket : Type := mkPacket {
  ProductType : CombustionProductType;
  SerialNumber : string;
  Temps : list float32.t;
  Mode : CombustionMode;
  ColorID : CombustionColorID;
  ProbeID : Z;
  BatteryOK : bool;
  VirtualCoreIndex : Z;
  VirtualSurfaceIndex : Z;
  VirtualAmbientIndex : Z;
  Overheating : list bool
}.

(** Field assignments [packet.F = v]. *)
Definition set_ProductType v p :=
  mkPacket v (SerialNumber p) (Temps p) (Mode p) (ColorID p) (ProbeID p)
    (BatteryOK p) (VirtualCoreIndex p) (VirtualSurfaceIndex p)
    (VirtualAmbientIndex p) (Overheating p).
Definition set_SerialNumber v p :=
  mkPacket (ProductType p) v (Temps p) (Mode p) (ColorID p) (ProbeID p)
    (BatteryOK p) (VirtualCoreIndex p) (VirtualSurfaceIndex p)
    (VirtualAmbientIndex p) (Overheating p).
Definition set_Temps v p :=
  mkPacket (ProductType p) (SerialNumber p) v (Mode p) (ColorID p) (ProbeID p)
    (BatteryOK p) (VirtualCoreIndex p) (VirtualSurfaceIndex p)
    (VirtualAmbientIndex p) (Overheating p).
Definition set_Mode v p :=
  mkPacket (ProductType p) (SerialNumber p) (Temps p) v (ColorID p) (ProbeID p)
    (BatteryOK p) (VirtualCoreIndex p) (VirtualSurfaceIndex p)
    (VirtualAmbientIndex p) (Overheating p).
Definition set_ColorID v p :=
  mkPacket (ProductType p) (SerialNumber p) (Temps p) (Mode p) v (ProbeID p)
    (BatteryOK p) (VirtualCoreIndex p) (VirtualSurfaceIndex p)
    (VirtualAmbientIndex p) (Overheating p).
Definition set_ProbeID v p :=
  mkPacket (ProductType p) (SerialNumber p) (Temps p) (Mode p) (ColorID p) v
    (BatteryOK p) (VirtualCoreIndex p) (VirtualSurfaceIndex p)
    (VirtualAmbientIndex p) (Overheating p).
Definition set_BatteryOK v p :=
  mkPacket (ProductType p) (SerialNumber p) (Temps p) (Mode p) (ColorID p)
    (ProbeID p) v (VirtualCoreIndex p) (VirtualSurfaceIndex p)
    (VirtualAmbientIndex p) (Overheating p).
Definition set_VirtualCoreIndex v p :=
  mkPacket (ProductType p) (SerialNumber p) (Temps p) (Mode p) (ColorID p)
    (ProbeID p) (BatteryOK p) v (VirtualSurfaceIndex p)
    (VirtualAmbientIndex p) (Overheating p).
Definition set_VirtualSurfaceIndex v p :=
  mkPacket (ProductType p) (SerialNumber p) (Temps p) (Mode p) (ColorID p)
    (ProbeID p) (BatteryOK p) (VirtualCoreIndex p) v
    (VirtualAmbientIndex p) (Overheating p).
Definition set_VirtualAmbientIndex v p :=
  mkPacket (ProductType p) (SerialNumber p) (Temps p) (Mode p) (ColorID p)
    (ProbeID p) (BatteryOK p) (VirtualCoreIndex p) (VirtualSurfaceIndex p)
    v (Overheating p).
Definition set_Overheating v p :=
  mkPacket (ProductType p) (SerialNumber p) (Temps p) (Mode p) (ColorID p)
    (ProbeID p) (BatteryOK p) (VirtualCoreIndex p) (VirtualSurfaceIndex p)
    (VirtualAmbientIndex p) v.

(** [a[i] = v] on an array or slice [a] with [i] in range (every
    assignment of the decoder is: the indices are constants below the
    length just allocated); out of range the list is left as it is. *)
Fixpoint assign {A} (i : nat) (v : A) (a : list A) : list A :=
  match a, i with
  | [], _ => []
  | _ :: rest, O => v :: rest
  | x :: rest, S j => x :: assign j v rest
  end.

(** [make([]float32, n)] *)
Definition make (n : nat) : list float32.t := repeat float32.zero n.

(** [fromRawTemp]: [(float32(raw) * 0.05) - 20.0], each operation rounded
    to [float32]. *)
Definition fromRawTemp (raw : Z) : float32.t :=
  float32.sub (float32.mul (float32.of_Z raw) float32.c0_05) float32.c20.

(** The raw 13-bit readings, as the operands of [fromRawTemp] are written. *)
Definition rawT1 (b16 b17 : Z) : Z :=
  Z.lor (shl16 (Z.land b16 0x1f) 8) (Z.land b17 0xff).
Definition rawT2 (b14 b15 b16 : Z) : Z :=
  Z.lor (Z.lor (shl16 (Z.land b14 0x03) 11) (shl16 (Z.land b15 0xff) 3))
        (Z.shiftr (Z.land b16 0xe0) 5).
Definition rawT3 (b13 b14 : Z) : Z :=
  Z.lor (shl16 (Z.land b13 0x7f) 6) (Z.shiftr (Z.land b14 0xfc) 2).
Definition rawT4 (b11 b12 b13 : Z) : Z :=
  Z.lor (Z.lor (shl16 (Z.land b11 0x0f) 9) (shl16 (Z.land b12 0xff) 1))
        (Z.shiftr (Z.land b13 0x80) 7).
Definition rawT5 (b9 b10 b11 : Z) : Z :=
  Z.lor (Z.lor (shl16 (Z.land b9 0x01) 12) (shl16 (Z.land b10 0xff) 4))
        (Z.shiftr (Z.land b11 0xf0) 4).
Definition rawT6 (b8 b9 : Z) : Z :=
  Z.lor (shl16 (Z.land b8 0x3f) 7) (Z.shiftr (Z.land b9 0xfe) 1).
Definition rawT7 (b6 b7 b8 : Z) : Z :=
  Z.lor (Z.lor (shl16 (Z.land b6 0x07) 10) (shl16 (Z.land b7 0xff) 2))
        (Z.shiftr (Z.land b8 0xc0) 6).
Definition rawT8 (b5 b6 : Z) : Z :=
  Z.lor (shl16 (Z.land b5 0xff) 5) (Z.shiftr b6 3).

(** One iteration of the loop over [i := range 8]:
    [packet.Overheating[7-i] = rawPacket[21]&ohMask == ohMask] and
    [ohMask = ohMask >> 1]. *)
Definition overheating_step (b21 : Z) (st : list bool * Z) (i : nat)
  : list bool * Z :=
  let '(oh, ohMask) := st in
  (assign (7 - i) (Z.land b21 ohMask =? ohMask) oh, Z.shiftr ohMask 1).

(** The loop [for i := range 8], started with [ohMask = 0x80]. *)
Fixpoint overheating_loop (iters : list nat) (st : list bool * Z)
  : Go (list bool * Z) :=
  match iters with
  | [] => ret st
  | i :: rest =>
      b21 <- index 21 ;; overheating_loop rest (overheating_step b21 st i)
  end.

(** The zero value of [CombustionPacket] with the fields the composite
    literal names. *)
Definition packet0 : CombustionPacket :=
  {| ProductType := CombustionUnknownPT;
     SerialNumber := EmptyString;
     Temps := [];
     Mode := 0;
     ColorID := 0;
     ProbeID := 0;
     BatteryOK := false;
     VirtualCoreIndex := 0;
     VirtualSurfaceIndex := 0;
     VirtualAmbientIndex := 0;
     Overheating := repeat false 8 |}.

(** The two arms that fill [packet.Temps]. *)
Definition instantReadTemps : Go (list float32.t) :=
  let temps := make 1 in
  b16 <- index 16 ;; b17 <- index 17 ;;
  ret (assign 0 (fromRawTemp (rawT1 b16 b17)) temps).

Definition normalTemps : Go (list float32.t) :=
  let temps := make 8 in
  b5 <- index 5 ;; b6 <- index 6 ;;
  let temps := assign 7 (fromRawTemp (rawT8 b5 b6)) temps in
  b6 <- index 6 ;; b7 <- index 7 ;; b8 <- index 8 ;;
  let temps := assign 6 (fromRawTemp (rawT7 b6 b7 b8)) temps in
  b8 <- index 8 ;; b9 <- index 9 ;;
  let temps := assign 5 (fromRawTemp (rawT6 b8 b9)) temps in
  b9 <- index 9 ;; b10 <- index 10 ;; b11 <- index 11 ;;
  let temps := assign 4 (fromRawTemp (rawT5 b9 b10 b11)) temps in
  b11 <- index 11 ;; b12 <- index 12 ;; b13 <- index 13 ;;
  let temps := assign 3 (fromRawTemp (rawT4 b11 b12 b13)) temps in
  b13 <- index 13 ;; b14 <- index 14 ;;
  let temps := assign 2 (fromRawTemp (rawT3 b13 b14)) temps in
  b14 <- index 14 ;; b15 <- index 15 ;; b16 <- index 16 ;;
  let temps := assign 1 (fromRawTemp (rawT2 b14 b15 b16)) temps in
  b16 <- index 16 ;; b17 <- index 17 ;;
  ret (assign 0 (fromRawTemp (rawT1 b16 b17)) temps).

(** [ExtractCombustionPacket(rawPacket)], statement by statement. *)
Definition ExtractCombustionPacket : Go CombustionPacket :=
  let packet := packet0 in
  b0 <- index 0 ;;
  let packet := set_ProductType b0 packet in
  w <- reslice 1 5 ;; slices_Reverse w ;;;
  w <- reslice 1 5 ;; serial <- contents w ;;
  let packet := set_SerialNumber (hex.EncodeToString serial) packet in
  b18 <- index 18 ;;
  let packet := set_Mode (Z.land b18 0x03) packet in
  b18 <- index 18 ;;
  let packet := set_ColorID (Z.land (Z.shiftr b18 2) 0x70) packet in
  b18 <- index 18 ;;
  let packet := set_ProbeID (Z.land (Z.shiftr b18 5) 0x70) packet in
  w <- reslice 5 18 ;; slices_Reverse w ;;;
  temps <- (if Mode packet =? CombustionModeInstantRead then instantReadTemps
            else if Mode packet =? CombustionModeNormal then normalTemps
            else ret (Temps packet)) ;;
  let packet := set_Temps temps packet in
  b19 <- index 19 ;;
  let packet := set_BatteryOK (Z.land b19 0x01 =? 0x00) packet in
  b19 <- index 19 ;;
  let packet := set_VirtualCoreIndex (Z.land (Z.shiftr b19 1) 0x07) packet in
  b19 <- index 19 ;;
  let packet :=
    set_VirtualSurfaceIndex (wrap8 (Z.land (Z.shiftr b19 4) 0x03 + 3)) packet in
  b19 <- index 19 ;;
  let packet :=
    set_VirtualAmbientIndex (wrap8 (Z.land (Z.shiftr b19 6) 0x03 + 4)) packet in
  st <- overheating_loop (seq 0 8) (Overheating packet, 0x80) ;;
  let packet := set_Overheating (fst st) packet in
  ret packet.

(** ** Vocabulary of the properties *)

(** The run of the decoder on a buffer with the visible bytes [raw] and the
    spare capacity [spare]. *)
Definition run (raw spare : list byte) : outcome CombustionPacket * Slice.t :=
  ExtractCombustionPacket (Slice.mk raw spare).

(** Byte [i] of the input as it arrives, before any reversal. *)
Definition byteAt (raw : list byte) (i : nat) : Z := u8 (nth i raw x00).

(** A panic that reports a position the buffer cannot supply: an index at
    or beyond the length, or a slice bound beyond the capacity. *)
Definition outOfReach (e : panic) (s : Slice.t) : Prop :=
  match e with
  | IndexOutOfRange i n => n = Slice.len s /\ (n <= i)%nat
  | SliceBoundsOutOfRange hi c => c = Slice.cap s /\ (c < hi)%nat
  end.

(** The buffer after both in-place reversals. *)
Definition reversed (raw : list byte) : list byte :=
  Slice.reverse_window 5 18 (Slice.reverse_window 1 5 raw).

(** Where the byte found at position [i] after the call came from. *)
Definition origin (i : nat) : nat :=
  if (1 <=? i)%nat && (i <=? 4)%nat then (5 - i)%nat
  else if (5 <=? i)%nat && (i <=? 17)%nat then (22 - i)%nat
  else i.

(** The eight raw readings in terms of the input bytes: index [i] of the
    reversed buffer holds input byte [22 - i], for [i] from 5 to 17. *)
Definition rawReadings (raw : list byte) : list Z :=
  let w := byteAt raw in
  [ rawT1 (w 6%nat) (w 5%nat);
    rawT2 (w 8%nat) (w 7%nat) (w 6%nat);
    rawT3 (w 9%nat) (w 8%nat);
    rawT4 (w 11%nat) (w 10%nat) (w 9%nat);
    rawT5 (w 13%nat) (w 12%nat) (w 11%nat);
    rawT6 (w 14%nat) (w 13%nat);
    rawT7 (w 16%nat) (w 15%nat) (w 14%nat);
    rawT8 (w 17%nat) (w 16%nat) ].

(** The packet the decoder returns on at least 22 bytes, field by field in
    terms of the input bytes ([ExtractCombustionPacket_returns] proves that
    the run computes it). *)
Definition decoded (raw : list byte) : CombustionPacket :=
  let w := byteAt raw in
  let mode := Z.land (w 18%nat) 0x03 in
  {| ProductType := w 0%nat;
     SerialNumber :=
       hex.EncodeToString
         [nth 4 raw x00; nth 3 raw x00; nth 2 raw x00; nth 1 raw x00];
     Temps :=
       if mode =? CombustionModeInstantRead
       then map fromRawTemp (firstn 1 (rawReadings raw))
       else if mode =? CombustionModeNormal
            then map fromRawTemp (rawReadings raw)
            else [];
     Mode := mode;
     ColorID := Z.land (Z.shiftr (w 18%nat) 2) 0x70;
     ProbeID := Z.land (Z.shiftr (w 18%nat) 5) 0x70;
     BatteryOK := Z.land (w 19%nat) 0x01 =? 0;
     VirtualCoreIndex := Z.land (Z.shiftr (w 19%nat) 1) 0x07;
     VirtualSurfaceIndex := wrap8 (Z.land (Z.shiftr (w 19%nat) 4) 0x03 + 3);
     VirtualAmbientIndex := wrap8 (Z.land (Z.shiftr (w 19%nat) 6) 0x03 + 4);
     Overheating :=
       map (fun m => Z.land (w 21%nat) m =? m) [1; 2; 4; 8; 16; 32; 64; 128] |}.

(** Lowercase hexadecimal characters, and the value of one. *)
Definition is_lower_hex (c : ascii) : bool :=
  let n := N_of_ascii c in
  ((48 <=? n) && (n <=? 57) || (97 <=? n) && (n <=? 102))%N.

Definition hex_value (c : ascii) : Z :=
  let n := Z.of_N (N_of_ascii c) in
  if n <=? 57 then n - 48 else n - 87.

Fixpoint string_forallb (f : ascii -> bool) (s : string) : bool :=
  match s with
  | EmptyString => true
  | String c rest => f c && string_forallb f rest
  end.

(** The byte values a string of hexadecimal characters spells, two
    characters to a byte. *)
Fixpoint hex_pairs (s : string) : list Z :=
  match s with
  | String hi (String lo rest) =>
      (16 * hex_value hi + hex_value lo) :: hex_pairs rest
  | _ => []
  end.

(** The packed thermistor region [rawPacket[5:18]] once reversed, its size
    in bits, and the number it spells with its first byte most
    significant. *)
Definition thermistorRegion (raw : list byte) : list byte :=
  Slice.window 5 18 (reversed raw).

Definition regionBits (raw : list byte) : Z :=
  8 * Z.of_nat (List.length (thermistorRegion raw)).

Definition bigEndian (bs : list byte) : Z :=
  fold_left (fun acc b => acc * 256 + u8 b) bs 0.

(** The [k]-th 13-bit field of the region, counted from the least
    significant end. *)
Definition packedSlot (raw : list byte) (k : Z) : Z :=
  (bigEndian (thermistorRegion raw) / 2 ^ (13 * k)) mod 2 ^ 13.

(** The number spelled by 13-bit fields, least significant first. *)
Definition packedSum (fields : list Z) : Z :=
  fold_right (fun r acc => r + 2 ^ 13 * acc) 0 fields.

(** The number of whole 13-bit fields the region has room for. *)
Definition packedSlotCount (raw : list byte) : Z := regionBits raw / 13.

(** A [float32] result within 2^-15 degrees of the exact value of
    [raw * 0.05 - 20], that is of [(raw - 400) / 20]: with [v / 2^(-e)] the
    value of the float, [|20 * v - (raw - 400) * 2^(-e)| * 2^15 <= 20 * 2^(-e)]. *)
Definition within_tolerance (raw : Z) (x : float32.t) : bool :=
  match x with
  | S754_zero _ => raw =? 400
  | S754_finite s m e =>
      let v := if s then Z.neg m else Z.pos m in
      (e <? 0)
      && (Z.abs (20 * v - (raw - 400) * 2 ^ (- e)) * 2 ^ 15 <=? 20 * 2 ^ (- e))
  | _ => false
  end.

(** The Go specification lets a compiler fuse [x*y - z] into one operation
    with a single rounding (arm64, ppc64, s390x, riscv64 do).  The fused
    result is the exact [raw * 13421773 * 2^-28 - 20] rounded once. *)
Definition fromRawTemp_fused (raw : Z) : float32.t :=
  binary_normalize float32.prec float32.emax
    (raw * 13421773 - 20 * 2 ^ 28) (-28) false.

(** All 13-bit values. *)
Definition all_raw_values : list Z := map Z.of_nat (seq 0 (Z.to_nat 8192)).

(** Sample buffers: a Normal-mode advertisement of 24 bytes, the same in
    InstantRead mode, one whose product-type byte is outside the documented
    table, and one whose thermistor region is all ones. *)
Definition sampleNormal : list byte :=
  [ x01; x12; x34; xab; xcd;
    x20; x83; x0c; xc8; x40; x06; x19; x90; x00; x32; x00; x64; x00;
    xfc; x01; x00; x81; x00; x00 ].

Definition sampleInstantRead : list byte :=
  [ x01; x12; x34; xab; xcd;
    x20; x03; x00; x00; x00; x00; x00; x00; x00; x00; x00; x00; x00;
    x01; x2a; x00; x00 ].

Definition sampleUndocumented : list byte :=
  [ x06; x00; x00; x00; x00;
    x00; x00; x00; x00; x00; x00; x00; x00; x00; x00; x00; x00; x00;
    x00; x00; x00; x00 ].

Definition sampleAllOnes : list byte :=
  [ x01; x00; x00; x00; x00;
    xff; xff; xff; xff; xff; xff; xff; xff; xff; xff; xff; xff; xff;
    x00; x00; x00; x00 ].

Definition sampleShort : list byte := firstn 21 sampleNormal.

(** ** The scan callback and the example program *)

(** [const CombustionManufacuterID = 0x09C7] *)
Definition CombustionManufacuterID : Z := 0x09C7.

(** [bluetooth.ManufacturerDataElement]: a 16-bit company identifier and
    the payload that follows it. *)
Record ManufacturerDataElement : Type := mkElement {
  CompanyID : Z;
  Data : Slice.t
}.

(** [onScan], on the manufacturer data [md] of the scanned device.  The
    handler is the caller's code: what it does with a packet is a parameter
    (it returns some [T] or panics); [None] is the nil handler.  The result
    tells whether the handler ran, and the manufacturer data is returned as
    the call leaves it. *)
Definition onScan {T : Type}
    (packetHandler : option (CombustionPacket -> outcome T))
    (md : list ManufacturerDataElement)
  : outcome (option T) * list ManufacturerDataElement :=
  match md with
  | first :: others =>
      if CompanyID first =? CombustionManufacuterID then
        match ExtractCombustionPacket (Data first) with
        | (Returned packet, data) =>
            let md' := mkElement (CompanyID first) data :: others in
            match packetHandler with
            | Some handler =>
                match handler packet with
                | Returned t => (Returned (Some t), md')
                | Panicked e => (Panicked e, md')
                end
            | None => (Returned None, md')
            end
        | (Panicked e, data) =>
            (Panicked e, mkElement (CompanyID first) data :: others)
        end
      else (Returned None, md)
  | [] => (Returned None, md)
  end.

(** [float32] addition, and [(t*9/5)+32] as the example program writes it:
    multiplication, division and addition each rounded to [float32]. *)
Definition float32_add : float32.t -> float32.t -> float32.t :=
  SFadd float32.prec float32.emax.

Definition toFahrenheit (t : float32.t) : float32.t :=
  float32_add
    (float32.div (float32.mul t (float32.of_Z 9)) (float32.of_Z 5))
    (float32.of_Z 32).

(** [packet.Temps[i]] for a [byte] index [i]. *)
Definition temps_index (temps : list float32.t) (i : Z) : outcome float32.t :=
  match nth_error temps (Z.to_nat i) with
  | Some t => Returned t
  | None => Panicked (IndexOutOfRange (Z.to_nat i) (List.length temps))
  end.

(** The six arguments the example program passes to [fmt.Printf] after the
    format string; the rendering of the line is left to [fmt]. *)
Record printfArgs : Type := mkArgs {
  coreIndex : Z;
  coreFahrenheit : float32.t;
  surfaceIndex : Z;
  surfaceFahrenheit : float32.t;
  ambientIndex : Z;
  ambientFahrenheit : float32.t
}.

(** The callback of [example/cmd/main.go]: nothing unless
    [len(packet.Temps) > 1], else the arguments are evaluated from left to
    right, each index expression with its bounds check. *)
Definition mainCallback (packet : CombustionPacket) : outcome (option printfArgs) :=
  if 1 <? Z.of_nat (List.length (Temps packet)) then
    match temps_index (Temps packet) (VirtualCoreIndex packet) with
    | Panicked e => Panicked e
    | Returned tc =>
        match temps_index (Temps packet) (VirtualSurfaceIndex packet) with
        | Panicked e => Panicked e
        | Returned ts =>
            match temps_index (Temps packet) (VirtualAmbientIndex packet) with
            | Panicked e => Panicked e
            | Returned ta =>
                Returned
                  (Some (mkArgs (VirtualCoreIndex packet) (toFahrenheit tc)
                           (VirtualSurfaceIndex packet) (toFahrenheit ts)
                           (VirtualAmbientIndex packet) (toFahrenheit ta)))
            end
        end
    end
  else Returned None.

(** ** Vocabulary of the further properties *)

(** The number a sequence of flags spells, flag 0 least significant. *)
Definition flags_value (flags : list bool) : Z :=
  fold_right (fun f acc => Z.b2z f + 2 * acc) 0 flags.

(** A finite [float32] (neither infinite nor NaN). *)
Definition is_finite (x : float32.t) : bool :=
  match x with
  | S754_zero _ | S754_finite _ _ _ => true
  | _ => false
  end.

(** A Fahrenheit result within 2^-13 degrees of the exact value of
    [(raw * 0.05 - 20) * 9 / 5 + 32], that is of [(9 * raw - 400) / 100]. *)
Definition fahrenheit_within_tolerance (raw : Z) (x : float32.t) : bool :=
  match x with
  | S754_zero _ => 9 * raw =? 400
  | S754_finite s m e =>
      let v := if s then Z.neg m else Z.pos m in
      (e <? 0)
      && (Z.abs (100 * v - (9 * raw - 400) * 2 ^ (- e)) * 2 ^ 13
          <=? 100 * 2 ^ (- e))
  | _ => false
  end.

(** An advertisement whose first manufacturer-data element carries
    [sampleNormal] under Combustion's identifier, one under another
    identifier, and one whose Combustion element comes second. *)
Definition sampleAdvertisement : list ManufacturerDataElement :=
  [ mkElement CombustionManufacuterID (Slice.mk sampleNormal []) ].

Definition sampleForeign : list ManufacturerDataElement :=
  [ mkElement 0x004C (Slice.mk sampleNormal []);
    mkElement CombustionManufacuterID (Slice.mk sampleNormal []) ].

(** ** The run of the decoder *)

Section ReverseInPlace.

Variables (lo hi : nat).
Hypothesis lo_le_hi : (lo <= hi)%nat.

Lemma firstn_length_app {A} (l k : list A) :
  firstn (List.length l) (l ++ k) = l.
Proof. induction l; simpl; congruence. Qed.

Lemma skipn_length_app {A} (l k : list A) :
  skipn (List.length l) (l ++ k) = k.
Proof. induction l; simpl; congruence. Qed.

Lemma reverse_window_length (arr : list byte) :
  (hi <= List.length arr)%nat ->
  List.length (Slice.reverse_window lo hi arr) = List.length arr.
Proof.
  intros Hhi. unfold Slice.reverse_window, Slice.window.
  rewrite !length_app, length_rev, !length_firstn, !length_skipn. lia.
Qed.

Lemma reverse_window_app (arr k : list byte) :
  (hi <= List.length arr)%nat ->
  Slice.reverse_window lo hi (arr ++ k) = Slice.reverse_window lo hi arr ++ k.
Proof.
  intros Hhi. unfold Slice.reverse_window, Slice.window.
  rewrite !skipn_app, !firstn_app, !length_skipn.
  replace (lo - List.length arr)%nat with 0%nat by lia.
  replace (hi - List.length arr)%nat with 0%nat by lia.
  replace (hi - lo - (List.length arr - lo))%nat with 0%nat by lia.
  simpl. rewrite !app_nil_r, <- !app_assoc. reflexivity.
Qed.

(** A reversal inside the visible part touches neither the length nor the
    spare capacity. *)
Lemma slices_Reverse_elems (elems spare : list byte) :
  (hi <= List.length elems)%nat ->
  slices_Reverse (lo, hi) (Slice.mk elems spare)
  = (Returned tt, Slice.mk (Slice.reverse_window lo hi elems) spare).
Proof.
  intros Hhi.
  unfold slices_Reverse, Slice.with_backing, Slice.backing, Slice.len.
  cbn [fst snd Slice.elems Slice.spare].
  rewrite reverse_window_app by assumption.
  rewrite <- (reverse_window_length elems Hhi) at 1 2.
  rewrite firstn_length_app, skipn_length_app. reflexivity.
Qed.

End ReverseInPlace.

(** No reversal lengthens the slice. *)
Lemma slices_Reverse_len (w : subslice) (s : Slice.t) :
  exists s', slices_Reverse w s = (Returned tt, s')
             /\ (Slice.len s' <= Slice.len s)%nat.
Proof.
  eexists. split; [reflexivity|].
  unfold Slice.with_backing, Slice.len. cbn [Slice.elems].
  rewrite length_firstn. lia.
Qed.

Lemma index_panics (i : nat) (s : Slice.t) :
  (Slice.len s <= i)%nat ->
  index i s = (Panicked (IndexOutOfRange i (Slice.len s)), s).
Proof.
  intros H. unfold index.
  rewrite (proj2 (nth_error_None (Slice.elems s) i) H). reflexivity.
Qed.

Ltac go_run :=
  cbn [bind ret index reslice contents nth_error Slice.cap Slice.elems
       Slice.spare Slice.backing Slice.window List.length Nat.add Nat.leb
       app firstn skipn fst snd Nat.sub].

Ltac go_reverse :=
  rewrite slices_Reverse_elems by (simpl; lia);
  cbv [Slice.reverse_window Slice.window firstn skipn rev app Nat.sub].

Ltac len_lia :=
  unfold outOfReach, Slice.len, Slice.cap in *; simpl in *; lia.

Tactic Notation "explicit_bytes" ident(raw) hyp(H) integer(n) :=
  do n (destruct raw as [|? raw]; [simpl in H; lia|]).

(** On at least 22 bytes the decoder returns [decoded raw] and leaves the
    buffer with bytes 1-4 and bytes 5-17 reversed. *)
Lemma ExtractCombustionPacket_returns (raw spare : list byte) :
  (22 <= List.length raw)%nat ->
  run raw spare = (Returned (decoded raw), Slice.mk (reversed raw) spare).
Proof.
  intros H. explicit_bytes raw H 22. clear H.
  unfold run, reversed, ExtractCombustionPacket.
  go_run. go_reverse. go_run. go_reverse.
  cbn [Mode set_ProbeID set_ColorID set_Mode set_SerialNumber set_ProductType].
  unfold decoded. cbv [byteAt nth].
  destruct (Z.land (u8 b17) 3 =? CombustionModeInstantRead).
  - unfold instantReadTemps. go_run. reflexivity.
  - destruct (Z.land (u8 b17) 3 =? CombustionModeNormal).
    + unfold normalTemps. go_run. reflexivity.
    + go_run. reflexivity.
Qed.

(** Below 19 bytes the decoder panics at [rawPacket[18]] at the latest:
    at [rawPacket[0]] on an empty buffer, at [rawPacket[1:5]] when the
    capacity is below 5. *)
Lemma ExtractCombustionPacket_panics_below_19 (raw spare : list byte) :
  (List.length raw < 19)%nat ->
  exists e s', run raw spare = (Panicked e, s') /\ outOfReach e s'.
Proof.
  intros H. unfold run, ExtractCombustionPacket. cbn [bind].
  destruct raw as [|b0 raw].
  - rewrite index_panics by len_lia.
    do 2 eexists. split; [reflexivity|len_lia].
  - set (s0 := Slice.mk (b0 :: raw) spare).
    change (index 0 s0) with (Returned (u8 b0), s0).
    cbv iota beta. cbn [reslice].
    destruct (5 <=? Slice.cap s0)%nat eqn:Hcap.
    + destruct (slices_Reverse_len (1%nat, 5%nat) s0) as (s1 & Hrev & Hlen).
      rewrite Hrev.
      destruct (5 <=? Slice.cap s1)%nat eqn:Hcap'.
      * cbn [contents]. rewrite index_panics by len_lia.
        do 2 eexists. split; [reflexivity|len_lia].
      * do 2 eexists. split; [reflexivity|].
        apply Nat.leb_gt in Hcap'. len_lia.
    + do 2 eexists. split; [reflexivity|].
      apply Nat.leb_gt in Hcap. len_lia.
Qed.

(** With 19 to 21 bytes both reversals and the temperatures are computed,
    and the panic comes at [rawPacket[19]] or at [rawPacket[21]]. *)
Lemma ExtractCombustionPacket_panics_19_to_21 (raw spare : list byte) :
  (19 <= List.length raw < 22)%nat ->
  exists e s', run raw spare = (Panicked e, s') /\ outOfReach e s'.
Proof.
  intros [H H']. explicit_bytes raw H 19.
  assert (Hrest : (List.length raw < 3)%nat) by (simpl in H'; lia).
  clear H H'.
  unfold run, ExtractCombustionPacket.
  go_run. go_reverse. go_run. go_reverse.
  cbn [Mode set_ProbeID set_ColorID set_Mode set_SerialNumber set_ProductType].
  destruct raw as [|b19 [|b20 [|b21 raw]]]; [| | |simpl in Hrest; lia];
    (destruct (Z.land (u8 b17) 3 =? CombustionModeInstantRead);
     [ unfold instantReadTemps
     | destruct (Z.land (u8 b17) 3 =? CombustionModeNormal);
       [ unfold normalTemps | ] ]);
    go_run; do 2 eexists; (split; [reflexivity|len_lia]).
Qed.

(** C1: a buffer shorter than 22 bytes always makes the decoder panic with
    a bounds error (the fault the specification calls TruncatedPacket): no
    packet is returned.  A bounds error is the only panic there is, it
    reports a position the buffer does not have, and length is the only
    precondition: on 22 bytes or more the decoder returns a packet. *)
Theorem C1_short_input_faults (raw spare : list byte) :
  ((List.length raw < 22)%nat ->
     exists e s', run raw spare = (Panicked e, s') /\ outOfReach e s')
  /\ ((22 <= List.length raw)%nat ->
        exists p s', run raw spare = (Returned p, s')).
Proof.
  split; intros H.
  - destruct (Nat.lt_ge_cases (List.length raw) 19) as [Hlt | Hge].
    + apply ExtractCombustionPacket_panics_below_19; assumption.
    + apply ExtractCombustionPacket_panics_19_to_21; lia.
  - do 2 eexists. apply ExtractCombustionPacket_returns; assumption.
Qed.

Lemma C1_short_input_faults_witness :
  (exists e s', run sampleShort [] = (Panicked e, s') /\ outOfReach e s')
  /\ (exists p s', run sampleNormal [] = (Returned p, s')).
Proof.
  split.
  - apply (proj1 (C1_short_input_faults sampleShort [])). simpl. lia.
  - apply (proj2 (C1_short_input_faults sampleNormal [])). simpl. lia.
Defined.

(** ** The caller's buffer after the call *)

Lemma reversed_length (raw : list byte) :
  (22 <= List.length raw)%nat -> List.length (reversed raw) = List.length raw.
Proof.
  intros H. unfold reversed.
  rewrite !reverse_window_length; try lia.
  rewrite reverse_window_length; lia.
Qed.

Lemma reversed_nth (raw : list byte) (i : nat) :
  (22 <= List.length raw)%nat ->
  nth i (reversed raw) x00 = nth (origin i) raw x00.
Proof.
  intros H. explicit_bytes raw H 22. clear H.
  cbv [reversed Slice.reverse_window Slice.window firstn skipn rev app Nat.sub].
  do 22 (destruct i as [|i]; [reflexivity|]).
  reflexivity.
Qed.

(** C2, as stated, fails: on [sampleNormal] the call returns and the buffer
    it leaves differs from the buffer it was given. *)
Lemma C2_input_unchanged_counterexample :
  exists p s',
    run sampleNormal [] = (Returned p, s')
    /\ Slice.elems s' <> sampleNormal.
Proof.
  do 2 eexists. split; [vm_compute; reflexivity | discriminate].
Qed.

(** C2, amended: for every input of at least 22 bytes the call returns and
    leaves the caller's buffer with the same length and the same spare
    capacity, bytes 1-4 in reversed order, bytes 5-17 in reversed order, and
    every other byte (0, 18 and beyond) unchanged. *)
Theorem C2_buffer_after_call (raw spare : list byte) :
  (22 <= List.length raw)%nat ->
  exists p s',
    run raw spare = (Returned p, s')
    /\ Slice.spare s' = spare
    /\ List.length (Slice.elems s') = List.length raw
    /\ forall i, nth i (Slice.elems s') x00 = nth (origin i) raw x00.
Proof.
  intros H. do 2 eexists.
  split; [apply ExtractCombustionPacket_returns; assumption|].
  cbn [Slice.spare Slice.elems].
  split; [reflexivity|].
  split; [apply reversed_length; assumption|].
  intros i. apply reversed_nth; assumption.
Qed.

Lemma C2_buffer_after_call_witness :
  exists p s',
    run sampleNormal [x00] = (Returned p, s')
    /\ Slice.spare s' = [x00]
    /\ List.length (Slice.elems s') = List.length sampleNormal
    /\ forall i, nth i (Slice.elems s') x00 = nth (origin i) sampleNormal x00.
Proof.
  apply (C2_buffer_after_call sampleNormal [x00]). simpl. lia.
Defined.

(** ** Product type *)

Lemma u8_zero (b : byte) : u8 b = 0 <-> b = x00.
Proof.
  split; [|intros ->; reflexivity].
  destruct b; intros H; solve [reflexivity | discriminate H].
Qed.

(** C3, as stated, fails: byte 0 of [sampleUndocumented] is 6, outside the
    documented table and not a declared constant, the call returns, and the
    product type is 6, not [CombustionUnknownPT]. *)
Lemma C3_unrecognized_is_unknown_counterexample :
  exists p s',
    run sampleUndocumented [] = (Returned p, s')
    /\ documentedProductType (byteAt sampleUndocumented 0) = false
    /\ ProductType p <> CombustionUnknownPT.
Proof.
  do 2 eexists. split; [vm_compute; reflexivity|].
  split; [reflexivity | discriminate].
Qed.

(** C3, amended: for every input of at least 22 bytes the call returns
    (no fault) and the product type is the numeric value of byte 0 itself,
    whatever it is; it is [CombustionUnknownPT] exactly when byte 0 is 0. *)
Theorem C3_product_type_is_byte_0 (raw spare : list byte) :
  (22 <= List.length raw)%nat ->
  exists p s',
    run raw spare = (Returned p, s')
    /\ ProductType p = byteAt raw 0
    /\ (ProductType p = CombustionUnknownPT <-> nth 0 raw x00 = x00).
Proof.
  intros H. do 2 eexists.
  split; [apply ExtractCombustionPacket_returns; assumption|].
  split; [reflexivity|].
  cbn [ProductType decoded]. unfold byteAt, CombustionUnknownPT.
  apply u8_zero.
Qed.

Lemma C3_product_type_is_byte_0_witness :
  exists p s',
    run sampleUndocumented [] = (Returned p, s')
    /\ ProductType p = byteAt sampleUndocumented 0
    /\ (ProductType p = CombustionUnknownPT
        <-> nth 0 sampleUndocumented x00 = x00).
Proof.
  apply (C3_product_type_is_byte_0 sampleUndocumented []). simpl. lia.
Defined.

(** ** Mode and the number of temperatures *)

Lemma mode_cases (b : byte) :
  let m := Z.land (u8 b) 0x03 in
  m = CombustionModeNormal \/ m = CombustionModeInstantRead
  \/ m = CombustionModeReserved \/ m = CombustionModeError.
Proof. destruct b; vm_compute; tauto. Qed.

(** C4: for every input of at least 22 bytes the decoded mode is the two low
    bits of byte 18, one of the four modes, and [Temps] has exactly 1
    element in InstantRead mode, exactly 8 in Normal mode, and none in
    Reserved or Error mode. *)
Theorem C4_temps_length_by_mode (raw spare : list byte) :
  (22 <= List.length raw)%nat ->
  exists p s',
    run raw spare = (Returned p, s')
    /\ Mode p = Z.land (byteAt raw 18) 0x03
    /\ (Mode p = CombustionModeInstantRead -> List.length (Temps p) = 1%nat)
    /\ (Mode p = CombustionModeNormal -> List.length (Temps p) = 8%nat)
    /\ (Mode p = CombustionModeReserved \/ Mode p = CombustionModeError ->
        List.length (Temps p) = 0%nat)
    /\ (Mode p = CombustionModeNormal \/ Mode p = CombustionModeInstantRead
        \/ Mode p = CombustionModeReserved \/ Mode p = CombustionModeError).
Proof.
  intros H. do 2 eexists.
  split; [apply ExtractCombustionPacket_returns; assumption|].
  cbn [Mode Temps decoded].
  split; [reflexivity|].
  unfold byteAt.
  pose proof (mode_cases (nth 18 raw x00)) as Hm. cbv zeta in Hm.
  unfold CombustionModeNormal, CombustionModeInstantRead,
    CombustionModeReserved, CombustionModeError in *.
  repeat split; try assumption; intros Hmode;
    destruct (Z.eqb_spec (Z.land (u8 (nth 18 raw x00)) 3) 1);
    destruct (Z.eqb_spec (Z.land (u8 (nth 18 raw x00)) 3) 0);
    try reflexivity; lia.
Qed.

Lemma C4_temps_length_by_mode_witness :
  exists p s',
    run sampleInstantRead [] = (Returned p, s')
    /\ Mode p = Z.land (byteAt sampleInstantRead 18) 0x03
    /\ (Mode p = CombustionModeInstantRead -> List.length (Temps p) = 1%nat)
    /\ (Mode p = CombustionModeNormal -> List.length (Temps p) = 8%nat)
    /\ (Mode p = CombustionModeReserved \/ Mode p = CombustionModeError ->
        List.length (Temps p) = 0%nat)
    /\ (Mode p = CombustionModeNormal \/ Mode p = CombustionModeInstantRead
        \/ Mode p = CombustionModeReserved \/ Mode p = CombustionModeError).
Proof.
  apply (C4_temps_length_by_mode sampleInstantRead []). simpl. lia.
Defined.

(** ** Serial number *)

Lemma digits_of_byte (b : byte) :
  let hi := hex.digit (Z.shiftr (u8 b) 4) in
  let lo := hex.digit (Z.land (u8 b) 0x0f) in
  is_lower_hex hi = true /\ is_lower_hex lo = true
  /\ 16 * hex_value hi + hex_value lo = u8 b.
Proof. destruct b; vm_compute; auto. Qed.

Lemma EncodeToString_length (src : list byte) :
  String.length (hex.EncodeToString src) = (2 * List.length src)%nat.
Proof.
  induction src as [|v src IH]; [reflexivity|].
  cbn [hex.EncodeToString String.length List.length]. rewrite IH. lia.
Qed.

Lemma EncodeToString_lower_hex (src : list byte) :
  string_forallb is_lower_hex (hex.EncodeToString src) = true.
Proof.
  induction src as [|v src IH]; [reflexivity|].
  cbn [hex.EncodeToString string_forallb].
  destruct (digits_of_byte v) as (Hhi & Hlo & _).
  rewrite Hhi, Hlo, IH. reflexivity.
Qed.

Lemma EncodeToString_pairs (src : list byte) :
  hex_pairs (hex.EncodeToString src) = map u8 src.
Proof.
  induction src as [|v src IH]; [reflexivity|].
  cbn [hex.EncodeToString hex_pairs map].
  destruct (digits_of_byte v) as (_ & _ & Hv).
  rewrite Hv, IH. reflexivity.
Qed.

(** C6: for every input of at least 22 bytes the serial number is the hex
    encoding of input bytes 4, 3, 2, 1 in that order: exactly 8 characters,
    all of them lowercase hexadecimal, that spell those four bytes. *)
Theorem C6_serial_number (raw spare : list byte) :
  (22 <= List.length raw)%nat ->
  exists p s',
    run raw spare = (Returned p, s')
    /\ SerialNumber p
       = hex.EncodeToString
           [nth 4 raw x00; nth 3 raw x00; nth 2 raw x00; nth 1 raw x00]
    /\ String.length (SerialNumber p) = 8%nat
    /\ string_forallb is_lower_hex (SerialNumber p) = true
    /\ hex_pairs (SerialNumber p)
       = [byteAt raw 4; byteAt raw 3; byteAt raw 2; byteAt raw 1].
Proof.
  intros H. do 2 eexists.
  split; [apply ExtractCombustionPacket_returns; assumption|].
  cbn [SerialNumber decoded].
  split; [reflexivity|].
  split; [apply EncodeToString_length|].
  split; [apply EncodeToString_lower_hex|].
  apply EncodeToString_pairs.
Qed.

Lemma C6_serial_number_witness :
  exists p s',
    run sampleNormal [] = (Returned p, s')
    /\ SerialNumber p
       = hex.EncodeToString
           [nth 4 sampleNormal x00; nth 3 sampleNormal x00;
            nth 2 sampleNormal x00; nth 1 sampleNormal x00]
    /\ String.length (SerialNumber p) = 8%nat
    /\ string_forallb is_lower_hex (SerialNumber p) = true
    /\ hex_pairs (SerialNumber p)
       = [byteAt sampleNormal 4; byteAt sampleNormal 3;
          byteAt sampleNormal 2; byteAt sampleNormal 1].
Proof.
  apply (C6_serial_number sampleNormal []). simpl. lia.
Defined.

(** ** Battery status and virtual sensors *)

Lemma virtual_sensor_ranges (b : byte) :
  let core := Z.land (Z.shiftr (u8 b) 1) 0x07 in
  let surface := wrap8 (Z.land (Z.shiftr (u8 b) 4) 0x03 + 3) in
  let ambient := wrap8 (Z.land (Z.shiftr (u8 b) 6) 0x03 + 4) in
  0 <= core <= 7
  /\ 3 <= surface <= 6 /\ surface = Z.land (Z.shiftr (u8 b) 4) 0x03 + 3
  /\ 4 <= ambient <= 7 /\ ambient = Z.land (Z.shiftr (u8 b) 6) 0x03 + 4.
Proof. destruct b; vm_compute; intuition discriminate. Qed.

(** C7: for every input of at least 22 bytes, [VirtualCoreIndex] lies in
    [0,7], [VirtualSurfaceIndex] is the 2-bit field at bits 4-5 of byte 19
    plus 3 and lies in [3,6], [VirtualAmbientIndex] is the 2-bit field at
    bits 6-7 plus 4 and lies in [4,7]; when byte 19 is 0x01 the battery is
    not OK and the three indices are 0, 3 and 4. *)
Theorem C7_virtual_sensor_indices (raw spare : list byte) :
  (22 <= List.length raw)%nat ->
  exists p s',
    run raw spare = (Returned p, s')
    /\ 0 <= VirtualCoreIndex p <= 7
    /\ 3 <= VirtualSurfaceIndex p <= 6
    /\ VirtualSurfaceIndex p = Z.land (Z.shiftr (byteAt raw 19) 4) 0x03 + 3
    /\ 4 <= VirtualAmbientIndex p <= 7
    /\ VirtualAmbientIndex p = Z.land (Z.shiftr (byteAt raw 19) 6) 0x03 + 4
    /\ (nth 19 raw x00 = x01 ->
        BatteryOK p = false /\ VirtualCoreIndex p = 0
        /\ VirtualSurfaceIndex p = 3 /\ VirtualAmbientIndex p = 4).
Proof.
  intros H. do 2 eexists.
  split; [apply ExtractCombustionPacket_returns; assumption|].
  cbn [VirtualCoreIndex VirtualSurfaceIndex VirtualAmbientIndex BatteryOK
       decoded].
  unfold byteAt.
  pose proof (virtual_sensor_ranges (nth 19 raw x00)) as Hr. cbv zeta in Hr.
  destruct Hr as (Hc & Hs & Hs' & Ha & Ha').
  repeat (split; [assumption|]).
  intros ->. repeat split.
Qed.

Lemma C7_virtual_sensor_indices_witness :
  exists p s',
    run sampleNormal [] = (Returned p, s')
    /\ 0 <= VirtualCoreIndex p <= 7
    /\ 3 <= VirtualSurfaceIndex p <= 6
    /\ VirtualSurfaceIndex p
       = Z.land (Z.shiftr (byteAt sampleNormal 19) 4) 0x03 + 3
    /\ 4 <= VirtualAmbientIndex p <= 7
    /\ VirtualAmbientIndex p
       = Z.land (Z.shiftr (byteAt sampleNormal 19) 6) 0x03 + 4
    /\ (nth 19 sampleNormal x00 = x01 ->
        BatteryOK p = false /\ VirtualCoreIndex p = 0
        /\ VirtualSurfaceIndex p = 3 /\ VirtualAmbientIndex p = 4).
Proof.
  apply (C7_virtual_sensor_indices sampleNormal []). simpl. lia.
Defined.

(** ** Overheating flags *)

Lemma mask_is_testbit (b : byte) (i : nat) :
  (i < 8)%nat ->
  let m := Z.shiftl 1 (Z.of_nat i) in
  (Z.land (u8 b) m =? m) = Z.testbit (u8 b) (Z.of_nat i).
Proof.
  intros H. do 8 (destruct i as [|i]; [destruct b; reflexivity|]). lia.
Qed.

(** C8: for every input of at least 22 bytes and every [i] from 0 to 7,
    [Overheating[i]] is true exactly when byte 21 has the bit [1 << i] set,
    so bit 0x80 is index 7 and bit 0x01 is index 0, whatever the mode. *)
Theorem C8_overheating_bits (raw spare : list byte) (i : nat) :
  (22 <= List.length raw)%nat ->
  (i < 8)%nat ->
  exists p s',
    run raw spare = (Returned p, s')
    /\ List.length (Overheating p) = 8%nat
    /\ nth i (Overheating p) false
       = (Z.land (byteAt raw 21) (Z.shiftl 1 (Z.of_nat i))
          =? Z.shiftl 1 (Z.of_nat i))
    /\ nth i (Overheating p) false = Z.testbit (byteAt raw 21) (Z.of_nat i).
Proof.
  intros H Hi. do 2 eexists.
  split; [apply ExtractCombustionPacket_returns; assumption|].
  cbn [Overheating decoded].
  split; [reflexivity|].
  assert (Hmask :
    nth i (map (fun m => Z.land (byteAt raw 21) m =? m)
             [1; 2; 4; 8; 16; 32; 64; 128]) false
    = (Z.land (byteAt raw 21) (Z.shiftl 1 (Z.of_nat i))
       =? Z.shiftl 1 (Z.of_nat i))).
  { do 8 (destruct i as [|i]; [reflexivity|]). lia. }
  split; [exact Hmask|].
  rewrite Hmask. apply mask_is_testbit. assumption.
Qed.

Lemma C8_overheating_bits_witness :
  exists p s',
    run sampleNormal [] = (Returned p, s')
    /\ List.length (Overheating p) = 8%nat
    /\ nth 7 (Overheating p) false
       = (Z.land (byteAt sampleNormal 21) (Z.shiftl 1 (Z.of_nat 7))
          =? Z.shiftl 1 (Z.of_nat 7))
    /\ nth 7 (Overheating p) false
       = Z.testbit (byteAt sampleNormal 21) (Z.of_nat 7).
Proof.
  apply (C8_overheating_bits sampleNormal [] 7); simpl; lia.
Defined.

(** ** Color and probe identifiers *)

Lemma color_probe_values (b : byte) :
  let color := Z.land (Z.shiftr (u8 b) 2) 0x70 in
  let probe := Z.land (Z.shiftr (u8 b) 5) 0x70 in
  probe = 0
  /\ (color = 0x00 \/ color = 0x10 \/ color = 0x20 \/ color = 0x30)
  /\ color <> CombustionColorGrey
  /\ Z.shiftr (u8 b) 5 <= 7.
Proof. destruct b; vm_compute; intuition discriminate. Qed.

(** C10: for every input of at least 22 bytes, [ProbeID] is 0 (byte 18
    shifted right by 5 is at most 7 and has no bit of the mask 0x70), and
    [ColorID] is one of 0x00, 0x10, 0x20, 0x30, hence never
    [CombustionColorGrey]. *)
Theorem C10_probe_and_color_id (raw spare : list byte) :
  (22 <= List.length raw)%nat ->
  exists p s',
    run raw spare = (Returned p, s')
    /\ ProbeID p = 0
    /\ Z.shiftr (byteAt raw 18) 5 <= 7
    /\ (ColorID p = 0x00 \/ ColorID p = 0x10
        \/ ColorID p = 0x20 \/ ColorID p = 0x30)
    /\ ColorID p <> CombustionColorGrey.
Proof.
  intros H. do 2 eexists.
  split; [apply ExtractCombustionPacket_returns; assumption|].
  cbn [ProbeID ColorID decoded]. unfold byteAt.
  pose proof (color_probe_values (nth 18 raw x00)) as Hv. cbv zeta in Hv.
  tauto.
Qed.

Lemma C10_probe_and_color_id_witness :
  exists p s',
    run sampleNormal [] = (Returned p, s')
    /\ ProbeID p = 0
    /\ Z.shiftr (byteAt sampleNormal 18) 5 <= 7
    /\ (ColorID p = 0x00 \/ ColorID p = 0x10
        \/ ColorID p = 0x20 \/ ColorID p = 0x30)
    /\ ColorID p <> CombustionColorGrey.
Proof.
  apply (C10_probe_and_color_id sampleNormal []). simpl. lia.
Defined.

(** ** Raw readings *)

Lemma u8_range (b : byte) : 0 <= u8 b < 256.
Proof. destruct b; vm_compute; (split; [discriminate | reflexivity]). Qed.

(** A bitwise or of a multiple of [2^k] and a number below [2^k] is their
    sum. *)
Lemma lor_add_disjoint (a b k : Z) :
  0 <= k -> a mod 2 ^ k = 0 -> 0 <= b < 2 ^ k -> Z.lor a b = a + b.
Proof.
  intros Hk Ha Hb.
  assert (Hland : Z.land a b = 0).
  { apply Z.bits_inj'. intros n Hn.
    rewrite Z.land_spec, Z.bits_0.
    destruct (Z.lt_ge_cases n k) as [Hlt | Hge].
    - rewrite <- (Z.mod_pow2_bits_low a k n) by lia.
      rewrite Ha, Z.bits_0. reflexivity.
    - rewrite <- (Z.mod_small b (2 ^ k)) by lia.
      rewrite Z.mod_pow2_bits_high by lia. apply andb_false_r. }
  rewrite Z.add_nocarry_lxor by assumption.
  symmetry. apply Z.lxor_lor. assumption.
Qed.

Ltac with_ranges :=
  repeat match goal with
         | b : byte |- _ =>
             lazymatch goal with
             | _ : 0 <= u8 b < 256 |- _ => fail
             | _ => pose proof (u8_range b)
             end
         end.

Ltac pow2_lia :=
  repeat match goal with
         | |- context [2 ^ ?k] =>
             let v := eval vm_compute in (2 ^ k) in change (2 ^ k) with v
         end;
  Z.div_mod_to_equations; lia.

Ltac piece t u b := replace t with u by (destruct b; reflexivity).

Ltac join a b k :=
  rewrite (lor_add_disjoint a b k); [ | lia | pow2_lia | pow2_lia ].

Lemma rawT1_sum (b16 b17 : byte) :
  rawT1 (u8 b16) (u8 b17) = 256 * (u8 b16 mod 32) + u8 b17.
Proof.
  unfold rawT1. with_ranges.
  piece (shl16 (Z.land (u8 b16) 0x1f) 8) (256 * (u8 b16 mod 32)) b16.
  piece (Z.land (u8 b17) 0xff) (u8 b17) b17.
  join (256 * (u8 b16 mod 32)) (u8 b17) 8. reflexivity.
Qed.

Lemma rawT2_sum (b14 b15 b16 : byte) :
  rawT2 (u8 b14) (u8 b15) (u8 b16)
  = 2048 * (u8 b14 mod 4) + 8 * u8 b15 + u8 b16 / 32.
Proof.
  unfold rawT2. with_ranges.
  piece (shl16 (Z.land (u8 b14) 0x03) 11) (2048 * (u8 b14 mod 4)) b14.
  piece (shl16 (Z.land (u8 b15) 0xff) 3) (8 * u8 b15) b15.
  piece (Z.shiftr (Z.land (u8 b16) 0xe0) 5) (u8 b16 / 32) b16.
  join (2048 * (u8 b14 mod 4)) (8 * u8 b15) 11.
  join (2048 * (u8 b14 mod 4) + 8 * u8 b15) (u8 b16 / 32) 3. reflexivity.
Qed.

Lemma rawT3_sum (b13 b14 : byte) :
  rawT3 (u8 b13) (u8 b14) = 64 * (u8 b13 mod 128) + u8 b14 / 4.
Proof.
  unfold rawT3. with_ranges.
  piece (shl16 (Z.land (u8 b13) 0x7f) 6) (64 * (u8 b13 mod 128)) b13.
  piece (Z.shiftr (Z.land (u8 b14) 0xfc) 2) (u8 b14 / 4) b14.
  join (64 * (u8 b13 mod 128)) (u8 b14 / 4) 6. reflexivity.
Qed.

Lemma rawT4_sum (b11 b12 b13 : byte) :
  rawT4 (u8 b11) (u8 b12) (u8 b13)
  = 512 * (u8 b11 mod 16) + 2 * u8 b12 + u8 b13 / 128.
Proof.
  unfold rawT4. with_ranges.
  piece (shl16 (Z.land (u8 b11) 0x0f) 9) (512 * (u8 b11 mod 16)) b11.
  piece (shl16 (Z.land (u8 b12) 0xff) 1) (2 * u8 b12) b12.
  piece (Z.shiftr (Z.land (u8 b13) 0x80) 7) (u8 b13 / 128) b13.
  join (512 * (u8 b11 mod 16)) (2 * u8 b12) 9.
  join (512 * (u8 b11 mod 16) + 2 * u8 b12) (u8 b13 / 128) 1. reflexivity.
Qed.

Lemma rawT5_sum (b9 b10 b11 : byte) :
  rawT5 (u8 b9) (u8 b10) (u8 b11)
  = 4096 * (u8 b9 mod 2) + 16 * u8 b10 + u8 b11 / 16.
Proof.
  unfold rawT5. with_ranges.
  piece (shl16 (Z.land (u8 b9) 0x01) 12) (4096 * (u8 b9 mod 2)) b9.
  piece (shl16 (Z.land (u8 b10) 0xff) 4) (16 * u8 b10) b10.
  piece (Z.shiftr (Z.land (u8 b11) 0xf0) 4) (u8 b11 / 16) b11.
  join (4096 * (u8 b9 mod 2)) (16 * u8 b10) 12.
  join (4096 * (u8 b9 mod 2) + 16 * u8 b10) (u8 b11 / 16) 4. reflexivity.
Qed.

Lemma rawT6_sum (b8 b9 : byte) :
  rawT6 (u8 b8) (u8 b9) = 128 * (u8 b8 mod 64) + u8 b9 / 2.
Proof.
  unfold rawT6. with_ranges.
  piece (shl16 (Z.land (u8 b8) 0x3f) 7) (128 * (u8 b8 mod 64)) b8.
  piece (Z.shiftr (Z.land (u8 b9) 0xfe) 1) (u8 b9 / 2) b9.
  join (128 * (u8 b8 mod 64)) (u8 b9 / 2) 7. reflexivity.
Qed.

Lemma rawT7_sum (b6 b7 b8 : byte) :
  rawT7 (u8 b6) (u8 b7) (u8 b8)
  = 1024 * (u8 b6 mod 8) + 4 * u8 b7 + u8 b8 / 64.
Proof.
  unfold rawT7. with_ranges.
  piece (shl16 (Z.land (u8 b6) 0x07) 10) (1024 * (u8 b6 mod 8)) b6.
  piece (shl16 (Z.land (u8 b7) 0xff) 2) (4 * u8 b7) b7.
  piece (Z.shiftr (Z.land (u8 b8) 0xc0) 6) (u8 b8 / 64) b8.
  join (1024 * (u8 b6 mod 8)) (4 * u8 b7) 10.
  join (1024 * (u8 b6 mod 8) + 4 * u8 b7) (u8 b8 / 64) 2. reflexivity.
Qed.

Lemma rawT8_sum (b5 b6 : byte) :
  rawT8 (u8 b5) (u8 b6) = 32 * u8 b5 + u8 b6 / 8.
Proof.
  unfold rawT8. with_ranges.
  piece (shl16 (Z.land (u8 b5) 0xff) 5) (32 * u8 b5) b5.
  piece (Z.shiftr (u8 b6) 3) (u8 b6 / 8) b6.
  join (32 * u8 b5) (u8 b6 / 8) 5. reflexivity.
Qed.

Lemma rawReadings_sums (raw : list byte) :
  let w i := u8 (nth i raw x00) in
  rawReadings raw =
  [ 256 * (w 6%nat mod 32) + w 5%nat;
    2048 * (w 8%nat mod 4) + 8 * w 7%nat + w 6%nat / 32;
    64 * (w 9%nat mod 128) + w 8%nat / 4;
    512 * (w 11%nat mod 16) + 2 * w 10%nat + w 9%nat / 128;
    4096 * (w 13%nat mod 2) + 16 * w 12%nat + w 11%nat / 16;
    128 * (w 14%nat mod 64) + w 13%nat / 2;
    1024 * (w 16%nat mod 8) + 4 * w 15%nat + w 14%nat / 64;
    32 * w 17%nat + w 16%nat / 8 ].
Proof.
  cbv zeta. unfold rawReadings, byteAt.
  rewrite rawT1_sum, rawT2_sum, rawT3_sum, rawT4_sum, rawT5_sum, rawT6_sum,
    rawT7_sum, rawT8_sum.
  reflexivity.
Qed.

Lemma rawReadings_range (raw : list byte) :
  Forall (fun r => 0 <= r < 2 ^ 13) (rawReadings raw).
Proof.
  pose proof (rawReadings_sums raw) as H. cbv zeta in H. rewrite H.
  repeat match goal with
         | |- context [u8 ?b] =>
             lazymatch goal with
             | _ : 0 <= u8 b < 256 |- _ => fail
             | _ => pose proof (u8_range b)
             end
         end.
  repeat constructor; pow2_lia.
Qed.

Lemma readings_fill_region (raw : list byte) :
  (22 <= List.length raw)%nat ->
  bigEndian (thermistorRegion raw) = packedSum (rawReadings raw).
Proof.
  intros H.
  pose proof (rawReadings_sums raw) as Hs. cbv zeta in Hs. rewrite Hs. clear Hs.
  explicit_bytes raw H 22. clear H.
  cbv [thermistorRegion reversed Slice.reverse_window Slice.window firstn skipn
       rev app Nat.sub bigEndian fold_left packedSum fold_right nth].
  with_ranges. pow2_lia.
Qed.

Lemma packedSum_slot (fields : list Z) (k : nat) :
  Forall (fun r => 0 <= r < 2 ^ 13) fields ->
  (packedSum fields / 2 ^ (13 * Z.of_nat k)) mod 2 ^ 13 = nth k fields 0.
Proof.
  revert fields. induction k as [|k IH]; intros fields Hf.
  - change (2 ^ (13 * Z.of_nat 0)) with 1. rewrite Z.div_1_r.
    destruct Hf as [|r rest Hr Hrest]; [reflexivity|].
    cbn [packedSum fold_right nth].
    rewrite (Z.mul_comm (2 ^ 13)), Z.mod_add by lia.
    apply Z.mod_small. exact Hr.
  - replace (13 * Z.of_nat (S k)) with (13 + 13 * Z.of_nat k) by lia.
    rewrite Z.pow_add_r by lia.
    rewrite <- Z.div_div by lia.
    destruct Hf as [|r rest Hr Hrest].
    + cbn [packedSum fold_right nth]. rewrite !Z.div_0_l by lia. reflexivity.
    + cbn [packedSum fold_right nth].
      rewrite (Z.mul_comm (2 ^ 13)), Z.div_add by lia.
      rewrite (Z.div_small r (2 ^ 13)) by exact Hr.
      apply IH. exact Hrest.
Qed.

Lemma packedSlot_reading (raw : list byte) (k : nat) :
  (22 <= List.length raw)%nat ->
  packedSlot raw (Z.of_nat k) = nth k (rawReadings raw) 0.
Proof.
  intros H. unfold packedSlot.
  rewrite readings_fill_region by assumption.
  apply packedSum_slot, rawReadings_range.
Qed.

(** ** The packed thermistor region *)

Lemma thermistorRegion_length (raw : list byte) :
  (22 <= List.length raw)%nat -> List.length (thermistorRegion raw) = 13%nat.
Proof.
  intros H. explicit_bytes raw H 22. reflexivity.
Qed.

Lemma rawReadings_slots (raw : list byte) :
  (22 <= List.length raw)%nat ->
  rawReadings raw = map (packedSlot raw) [0; 1; 2; 3; 4; 5; 6; 7].
Proof.
  intros H.
  pose proof (fun k => packedSlot_reading raw k H) as Hk.
  pose proof (Hk 0%nat) as H0. pose proof (Hk 1%nat) as H1.
  pose proof (Hk 2%nat) as H2. pose proof (Hk 3%nat) as H3.
  pose proof (Hk 4%nat) as H4. pose proof (Hk 5%nat) as H5.
  pose proof (Hk 6%nat) as H6. pose proof (Hk 7%nat) as H7.
  cbn [map]. cbn [Z.of_nat Pos.of_succ_nat Pos.succ] in *.
  rewrite H0, H1, H2, H3, H4, H5, H6, H7. reflexivity.
Qed.

(** C5, as stated, fails.  On [sampleAllOnes], a Normal-mode packet whose
    bytes 5-17 are all 0xff, the region is 104 bits long, not 13 * 13 = 169;
    it has room for 8 fields of 13 bits, not 13; and the eight readings the
    decoder extracts (each 8191, thirteen ones) account for every bit of the
    region, so no packed slot is left unextracted. *)
Lemma C5_thirteen_slots_counterexample :
  exists p s',
    run sampleAllOnes [] = (Returned p, s')
    /\ Mode p = CombustionModeNormal
    /\ regionBits sampleAllOnes <> 13 * 13
    /\ packedSlotCount sampleAllOnes <> 13
    /\ Temps p = map fromRawTemp (repeat 8191 8)
    /\ packedSum (repeat 8191 8) = bigEndian (thermistorRegion sampleAllOnes)
    /\ bigEndian (thermistorRegion sampleAllOnes) = 2 ^ regionBits sampleAllOnes - 1.
Proof.
  do 2 eexists. split; [vm_compute; reflexivity|].
  split; [reflexivity|].
  split; [discriminate|].
  split; [discriminate|].
  split; [vm_compute; reflexivity|].
  split; vm_compute; reflexivity.
Qed.

(** C5, amended: the packed thermistor region at bytes 5-17, once reversed
    in place, is 104 bits = 13 bytes * 8 bits and consists of 8 consecutive
    13-bit fields that fill it exactly, with no padding, the most
    significant field first; each reading is assembled from bits of 2 or 3
    consecutive bytes ([rawReadings]); Normal-mode decoding extracts all 8
    fields, field [k] into [Temps[k]], and no further field exists. *)
Theorem C5_eight_slots_fill_region (raw spare : list byte) :
  (22 <= List.length raw)%nat ->
  Z.land (byteAt raw 18) 0x03 = CombustionModeNormal ->
  exists p s',
    run raw spare = (Returned p, s')
    /\ regionBits raw = 13 * 8
    /\ packedSlotCount raw = 8
    /\ rawReadings raw = map (packedSlot raw) [0; 1; 2; 3; 4; 5; 6; 7]
    /\ Temps p = map fromRawTemp (map (packedSlot raw) [0; 1; 2; 3; 4; 5; 6; 7])
    /\ bigEndian (thermistorRegion raw)
       = packedSum (map (packedSlot raw) [0; 1; 2; 3; 4; 5; 6; 7])
    /\ forall k, 8 <= k -> packedSlot raw k = 0.
Proof.
  intros H Hmode. do 2 eexists.
  split; [apply ExtractCombustionPacket_returns; assumption|].
  assert (Hbits : regionBits raw = 13 * 8).
  { unfold regionBits. rewrite thermistorRegion_length by assumption.
    reflexivity. }
  split; [exact Hbits|].
  split; [unfold packedSlotCount; rewrite Hbits; reflexivity|].
  split; [apply rawReadings_slots; assumption|].
  split.
  - cbn [Temps decoded]. rewrite Hmode. cbn [Z.eqb CombustionModeNormal
      CombustionModeInstantRead].
    rewrite <- rawReadings_slots by assumption. reflexivity.
  - split.
    + rewrite <- rawReadings_slots by assumption.
      apply readings_fill_region; assumption.
    + intros k Hk.
      replace k with (Z.of_nat (Z.to_nat k)) by lia.
      rewrite packedSlot_reading by assumption.
      apply nth_overflow. cbn [rawReadings List.length]. lia.
Qed.

Lemma C5_eight_slots_fill_region_witness :
  exists p s',
    run sampleNormal [] = (Returned p, s')
    /\ regionBits sampleNormal = 13 * 8
    /\ packedSlotCount sampleNormal = 8
    /\ rawReadings sampleNormal
       = map (packedSlot sampleNormal) [0; 1; 2; 3; 4; 5; 6; 7]
    /\ Temps p
       = map fromRawTemp (map (packedSlot sampleNormal) [0; 1; 2; 3; 4; 5; 6; 7])
    /\ bigEndian (thermistorRegion sampleNormal)
       = packedSum (map (packedSlot sampleNormal) [0; 1; 2; 3; 4; 5; 6; 7])
    /\ forall k, 8 <= k -> packedSlot sampleNormal k = 0.
Proof.
  apply (C5_eight_slots_fill_region sampleNormal []);
    [simpl; lia | reflexivity].
Defined.

(** ** Temperature conversion *)

(** The constants are the [float32] values of 20 and of 1/20 rounded to
    nearest. *)
Lemma float32_constants :
  float32.c20 = float32.of_Z 20
  /\ float32.c0_05 = float32.div (float32.of_Z 1) (float32.of_Z 20)
  /\ valid_binary float32.prec float32.emax float32.c20 = true
  /\ valid_binary float32.prec float32.emax float32.c0_05 = true.
Proof. repeat split; vm_compute; reflexivity. Qed.

(** Over the whole 13-bit range the conversion is a finite number within
    2^-15 degrees of the exact [raw * 0.05 - 20]. *)
Lemma fromRawTemp_accuracy (raw : Z) :
  0 <= raw < 2 ^ 13 -> within_tolerance raw (fromRawTemp raw) = true.
Proof.
  intros H.
  assert (Hall : forallb (fun r => within_tolerance r (fromRawTemp r))
                   all_raw_values = true) by (vm_compute; reflexivity).
  rewrite forallb_forall in Hall. apply Hall.
  replace raw with (Z.of_nat (Z.to_nat raw)) by lia.
  apply in_map, in_seq. change (2 ^ 13) with 8192 in H. lia.
Qed.

(** The two values of the specification's scenario do not depend on whether
    the multiplication and the subtraction are fused. *)
Remark fromRawTemp_fused_scenario :
  fromRawTemp_fused 0 = fromRawTemp 0
  /\ fromRawTemp_fused 800 = fromRawTemp 800.
Proof. split; vm_compute; reflexivity. Qed.

Lemma fromRawTemp_scenario :
  fromRawTemp 0 = float32.of_Z (-20) /\ fromRawTemp 800 = float32.of_Z 20.
Proof. split; vm_compute; reflexivity. Qed.

(** C9: the temperatures of the packet are [fromRawTemp] of the raw 13-bit
    readings unpacked from bytes 5-17, each at its position: the first
    reading alone in InstantRead mode, all eight in Normal mode, none
    otherwise.  Every one lies within 2^-15 degrees of the exact
    [raw * 0.05 - 20.0] (the error of the two [float32] roundings); a
    reading whose raw value is 0 decodes to exactly -20.0 and one whose raw
    value is 800 to exactly 20.0. *)
Theorem C9_temperature_conversion (raw spare : list byte) :
  (22 <= List.length raw)%nat ->
  exists p s',
    run raw spare = (Returned p, s')
    /\ Temps p
       = map fromRawTemp
           (if Mode p =? CombustionModeInstantRead
            then firstn 1 (rawReadings raw)
            else if Mode p =? CombustionModeNormal
                 then rawReadings raw
                 else [])
    /\ Forall (fun r => 0 <= r < 2 ^ 13
                        /\ within_tolerance r (fromRawTemp r) = true)
         (rawReadings raw)
    /\ (forall k t,
          nth_error (Temps p) k = Some t ->
          (nth k (rawReadings raw) 0 = 0 -> t = float32.of_Z (-20))
          /\ (nth k (rawReadings raw) 0 = 800 -> t = float32.of_Z 20))
    /\ fromRawTemp 0 = float32.of_Z (-20)
    /\ fromRawTemp 800 = float32.of_Z 20.
Proof.
  intros H. do 2 eexists.
  split; [apply ExtractCombustionPacket_returns; assumption|].
  destruct fromRawTemp_scenario as [Hzero H800].
  split; [|split; [|split; [|split; [exact Hzero | exact H800]]]].
  - cbn [Temps Mode decoded].
    destruct (Z.land (byteAt raw 18) 3 =? CombustionModeInstantRead);
      [reflexivity|].
    destruct (Z.land (byteAt raw 18) 3 =? CombustionModeNormal); reflexivity.
  - eapply Forall_impl; [|apply rawReadings_range].
    intros r Hr. split; [exact Hr | apply fromRawTemp_accuracy; exact Hr].
  - intros k t Hk. cbn [Temps decoded] in Hk.
    destruct (Z.land (byteAt raw 18) 3 =? CombustionModeInstantRead).
    + destruct k as [|k]; [|destruct k; discriminate Hk].
      cbn [rawReadings firstn map nth_error nth] in *.
      injection Hk as <-.
      split; intros ->; assumption.
    + destruct (Z.land (byteAt raw 18) 3 =? CombustionModeNormal);
        [|destruct k; discriminate Hk].
      rewrite nth_error_map in Hk.
      destruct (nth_error (rawReadings raw) k) as [r|] eqn:E;
        [|discriminate Hk].
      cbn [option_map] in Hk. injection Hk as <-.
      rewrite (nth_error_nth _ _ 0 E).
      split; intros ->; assumption.
Qed.

Lemma C9_temperature_conversion_witness :
  exists p s',
    run sampleNormal [] = (Returned p, s')
    /\ Temps p
       = map fromRawTemp
           (if Mode p =? CombustionModeInstantRead
            then firstn 1 (rawReadings sampleNormal)
            else if Mode p =? CombustionModeNormal
                 then rawReadings sampleNormal
                 else [])
    /\ Forall (fun r => 0 <= r < 2 ^ 13
                        /\ within_tolerance r (fromRawTemp r) = true)
         (rawReadings sampleNormal)
    /\ (forall k t,
          nth_error (Temps p) k = Some t ->
          (nth k (rawReadings sampleNormal) 0 = 0 -> t = float32.of_Z (-20))
          /\ (nth k (rawReadings sampleNormal) 0 = 800 -> t = float32.of_Z 20))
    /\ fromRawTemp 0 = float32.of_Z (-20)
    /\ fromRawTemp 800 = float32.of_Z 20.
Proof.
  apply (C9_temperature_conversion sampleNormal []). simpl. lia.
Defined.

(** * Further properties of the decoder, of [onScan] and of the example *)

(** ** Calling the decoder again *)

Lemma reversed_involutive (raw : list byte) :
  (22 <= List.length raw)%nat -> reversed (reversed raw) = raw.
Proof.
  intros H. explicit_bytes raw H 22. reflexivity.
Qed.

(** X1: a second call on the same buffer undoes the reversals of the first:
    after two calls the caller's buffer is as it was.  The second packet is
    decoded from the reversed bytes, so its serial number spells bytes 1-4
    in their original order, not reversed. *)
Theorem X1_second_call_restores_buffer (raw spare : list byte) :
  (22 <= List.length raw)%nat ->
  exists p1 p2,
    (p1 <- ExtractCombustionPacket ;;
     p2 <- ExtractCombustionPacket ;;
     ret (p1, p2)) (Slice.mk raw spare)
    = (Returned (p1, p2), Slice.mk raw spare)
    /\ run raw spare = (Returned p1, Slice.mk (reversed raw) spare)
    /\ SerialNumber p1
       = hex.EncodeToString
           [nth 4 raw x00; nth 3 raw x00; nth 2 raw x00; nth 1 raw x00]
    /\ SerialNumber p2
       = hex.EncodeToString
           [nth 1 raw x00; nth 2 raw x00; nth 3 raw x00; nth 4 raw x00].
Proof.
  intros H.
  pose proof (ExtractCombustionPacket_returns raw spare H) as H1.
  pose proof (ExtractCombustionPacket_returns (reversed raw) spare) as H2.
  rewrite reversed_length in H2 by assumption. specialize (H2 H).
  rewrite reversed_involutive in H2 by assumption.
  unfold run in H1, H2.
  exists (decoded raw), (decoded (reversed raw)).
  split; [cbn [bind]; rewrite H1, H2; reflexivity|].
  split; [exact H1|].
  split; [reflexivity|].
  cbn [SerialNumber decoded].
  rewrite !reversed_nth by assumption. reflexivity.
Qed.

Lemma X1_second_call_restores_buffer_witness :
  exists p1 p2,
    (p1 <- ExtractCombustionPacket ;;
     p2 <- ExtractCombustionPacket ;;
     ret (p1, p2)) (Slice.mk sampleNormal [])
    = (Returned (p1, p2), Slice.mk sampleNormal [])
    /\ run sampleNormal [] = (Returned p1, Slice.mk (reversed sampleNormal) [])
    /\ SerialNumber p1
       = hex.EncodeToString
           [nth 4 sampleNormal x00; nth 3 sampleNormal x00;
            nth 2 sampleNormal x00; nth 1 sampleNormal x00]
    /\ SerialNumber p2
       = hex.EncodeToString
           [nth 1 sampleNormal x00; nth 2 sampleNormal x00;
            nth 3 sampleNormal x00; nth 4 sampleNormal x00].
Proof.
  apply (X1_second_call_restores_buffer sampleNormal []). simpl. lia.
Defined.

(** ** What the packet depends on *)

(** X2: the packet is a function of bytes 0-19 and 21 only: byte 20, every
    byte from 22 on and the spare capacity never reach it. *)
Theorem X2_packet_ignores_byte_20_and_tail
    (raw1 spare1 raw2 spare2 : list byte) :
  (22 <= List.length raw1)%nat ->
  (22 <= List.length raw2)%nat ->
  (forall i, (i <= 19 \/ i = 21)%nat -> nth i raw1 x00 = nth i raw2 x00) ->
  exists p s1 s2,
    run raw1 spare1 = (Returned p, s1) /\ run raw2 spare2 = (Returned p, s2).
Proof.
  intros H1 H2 Hagree.
  exists (decoded raw2). do 2 eexists.
  split; [|apply ExtractCombustionPacket_returns; assumption].
  rewrite ExtractCombustionPacket_returns by assumption.
  f_equal. f_equal.
  unfold decoded, rawReadings, byteAt.
  rewrite !Hagree by lia. reflexivity.
Qed.

Lemma X2_packet_ignores_byte_20_and_tail_witness :
  exists p s1 s2,
    run sampleNormal [] = (Returned p, s1)
    /\ run (firstn 20 sampleNormal ++ [xff; x81; x55]) [x07] = (Returned p, s2).
Proof.
  apply (X2_packet_ignores_byte_20_and_tail
           sampleNormal [] (firstn 20 sampleNormal ++ [xff; x81; x55]) [x07]);
    [simpl; lia | simpl; lia |].
  intros i Hi.
  do 20 (destruct i as [|i]; [reflexivity|]).
  destruct i as [|i]; [lia|].
  destruct i as [|i]; [reflexivity|]. lia.
Defined.

(** ** Short buffers: where the panic comes and what it leaves behind *)

(** X3: with 5 to 18 bytes the decoder panics at [rawPacket[18]], after it
    has reversed bytes 1-4 in place: the caller gets no packet and a
    modified buffer. *)
Theorem X3_panic_after_serial_reversal (raw spare : list byte) :
  (5 <= List.length raw <= 18)%nat ->
  run raw spare
  = (Panicked (IndexOutOfRange 18 (List.length raw)),
     Slice.mk (Slice.reverse_window 1 5 raw) spare).
Proof.
  intros [H H']. unfold run, ExtractCombustionPacket.
  cbn [bind].
  destruct raw as [|b0 raw]; [simpl in H; lia|].
  set (s0 := Slice.mk (b0 :: raw) spare).
  change (index 0 s0) with (Returned (u8 b0), s0). cbv iota beta.
  assert (Hcap : (5 <=? Slice.cap s0)%nat = true)
    by (apply Nat.leb_le; subst s0; len_lia).
  cbn [reslice]. rewrite Hcap. subst s0.
  rewrite slices_Reverse_elems by (simpl in *; lia).
  set (s1 := Slice.mk (Slice.reverse_window 1 5 (b0 :: raw)) spare).
  assert (Hlen : Slice.len s1 = List.length (b0 :: raw)).
  { subst s1. unfold Slice.len. cbn [Slice.elems].
    apply reverse_window_length; simpl in *; lia. }
  assert (Hcap1 : (5 <=? Slice.cap s1)%nat = true).
  { apply Nat.leb_le. unfold Slice.cap. unfold Slice.len in Hlen.
    rewrite Hlen. simpl in *. lia. }
  rewrite Hcap1. cbn [contents].
  rewrite index_panics by (rewrite Hlen; simpl in *; lia).
  rewrite Hlen. reflexivity.
Qed.

Lemma X3_panic_after_serial_reversal_witness :
  run (firstn 10 sampleNormal) []
  = (Panicked (IndexOutOfRange 18 (List.length (firstn 10 sampleNormal))),
     Slice.mk (Slice.reverse_window 1 5 (firstn 10 sampleNormal)) []).
Proof.
  apply (X3_panic_after_serial_reversal (firstn 10 sampleNormal) []).
  simpl. lia.
Defined.

(** X4: with 19, 20 or 21 bytes the decoder reverses both ranges and
    computes everything up to the temperatures, then panics at
    [rawPacket[19]] (19 bytes) or at [rawPacket[21]] (20 or 21 bytes),
    leaving the buffer exactly as a successful call would. *)
Theorem X4_panic_after_both_reversals (raw spare : list byte) :
  (19 <= List.length raw <= 21)%nat ->
  run raw spare
  = (Panicked
       (IndexOutOfRange (if (List.length raw =? 19)%nat then 19 else 21)
          (List.length raw)),
     Slice.mk (Slice.reverse_window 5 18 (Slice.reverse_window 1 5 raw)) spare).
Proof.
  intros [H H']. explicit_bytes raw H 19.
  assert (Hrest : (List.length raw < 3)%nat) by (simpl in H'; lia).
  clear H H'.
  unfold run, ExtractCombustionPacket.
  go_run. go_reverse. go_run. go_reverse.
  cbn [Mode set_ProbeID set_ColorID set_Mode set_SerialNumber set_ProductType].
  destruct raw as [|b19 [|b20 [|b21 raw]]]; [| | |simpl in Hrest; lia];
    (destruct (Z.land (u8 b17) 3 =? CombustionModeInstantRead);
     [ unfold instantReadTemps
     | destruct (Z.land (u8 b17) 3 =? CombustionModeNormal);
       [ unfold normalTemps | ] ]);
    go_run; reflexivity.
Qed.

Lemma X4_panic_after_both_reversals_witness :
  run sampleShort []
  = (Panicked
       (IndexOutOfRange (if (List.length sampleShort =? 19)%nat then 19 else 21)
          (List.length sampleShort)),
     Slice.mk (Slice.reverse_window 5 18 (Slice.reverse_window 1 5 sampleShort))
       []).
Proof.
  apply (X4_panic_after_both_reversals sampleShort []). simpl. lia.
Defined.

(** X5: when even the capacity is below 5 the buffer is left untouched: an
    empty slice panics at [rawPacket[0]], any other at the slice expression
    [rawPacket[1:5]], which reports the capacity. *)
Theorem X5_panic_before_any_write (raw spare : list byte) :
  (List.length raw + List.length spare < 5)%nat ->
  run raw spare
  = (Panicked
       match raw with
       | [] => IndexOutOfRange 0 0
       | _ :: _ =>
           SliceBoundsOutOfRange 5 (List.length raw + List.length spare)
       end,
     Slice.mk raw spare).
Proof.
  intros H. unfold run, ExtractCombustionPacket. cbn [bind].
  destruct raw as [|b0 raw]; [reflexivity|].
  set (s0 := Slice.mk (b0 :: raw) spare).
  change (index 0 s0) with (Returned (u8 b0), s0). cbv iota beta.
  assert (Hcap : (5 <=? Slice.cap s0)%nat = false)
    by (apply Nat.leb_gt; subst s0; len_lia).
  cbn [reslice]. rewrite Hcap. reflexivity.
Qed.

Lemma X5_panic_before_any_write_witness :
  run [x01; x12; x34] [x56]
  = (Panicked (SliceBoundsOutOfRange 5 (3 + 1)), Slice.mk [x01; x12; x34] [x56]).
Proof.
  apply (X5_panic_before_any_write [x01; x12; x34] [x56]). simpl. lia.
Defined.

(** X6: a slice of 1 to 4 bytes with a capacity of at least 5 passes the
    slice expression [rawPacket[1:5]], whose bound is the capacity: the
    reversal then writes beyond the length of the slice, into the spare
    part of the backing array (byte 1 of the array ends at position 4),
    before the panic at [rawPacket[18]]. *)
Theorem X6_reversal_reaches_spare_capacity (raw spare : list byte) :
  (1 <= List.length raw < 5)%nat ->
  (5 <= List.length raw + List.length spare)%nat ->
  exists s',
    run raw spare = (Panicked (IndexOutOfRange 18 (List.length raw)), s')
    /\ Slice.len s' = List.length raw
    /\ Slice.backing s' = Slice.reverse_window 1 5 (raw ++ spare)
    /\ nth 4 (Slice.backing s') x00 = nth 1 (raw ++ spare) x00.
Proof.
  intros [H H'] Hcap.
  set (s0 := Slice.mk raw spare).
  set (s1 := Slice.with_backing s0 (Slice.reverse_window 1 5 (Slice.backing s0))).
  assert (Harr : List.length (Slice.reverse_window 1 5 (raw ++ spare))
                 = List.length (raw ++ spare)).
  { apply reverse_window_length; [lia|]. rewrite length_app. lia. }
  assert (Hlen : Slice.len s1 = List.length raw).
  { subst s1 s0. unfold Slice.with_backing, Slice.len, Slice.backing.
    cbn [Slice.elems Slice.spare]. rewrite length_firstn, Harr, length_app. lia. }
  assert (Hback : Slice.backing s1 = Slice.reverse_window 1 5 (raw ++ spare)).
  { subst s1 s0. unfold Slice.with_backing, Slice.backing.
    cbn [Slice.elems Slice.spare]. apply firstn_skipn. }
  assert (Hcap1 : (5 <=? Slice.cap s1)%nat = true).
  { apply Nat.leb_le. unfold Slice.cap.
    rewrite <- length_app. fold (Slice.backing s1).
    rewrite Hback, Harr, length_app. lia. }
  exists s1. split; [|split; [exact Hlen|split; [exact Hback|]]].
  - unfold run, ExtractCombustionPacket. cbn [bind]. fold s0.
    destruct raw as [|b0 raw]; [simpl in H; lia|].
    change (index 0 s0) with (Returned (u8 b0), s0). cbv iota beta.
    assert (Hcap0 : (5 <=? Slice.cap s0)%nat = true)
      by (apply Nat.leb_le; subst s0; len_lia).
    cbn [reslice]. rewrite Hcap0.
    change (slices_Reverse (1%nat, 5%nat) s0) with (Returned tt, s1).
    cbv iota beta. rewrite Hcap1. cbn [contents].
    rewrite index_panics by (rewrite Hlen; simpl in *; lia).
    rewrite Hlen. reflexivity.
  - rewrite Hback.
    assert (H5 : (5 <= List.length (raw ++ spare))%nat)
      by (rewrite length_app; lia).
    generalize dependent (raw ++ spare). intros arr _ _ H5.
    explicit_bytes arr H5 5. reflexivity.
Qed.

Lemma X6_reversal_reaches_spare_capacity_witness :
  exists s',
    run [x01; x12; x34] [x56; x78; x9a]
    = (Panicked (IndexOutOfRange 18 (List.length [x01; x12; x34])), s')
    /\ Slice.len s' = List.length [x01; x12; x34]
    /\ Slice.backing s'
       = Slice.reverse_window 1 5 ([x01; x12; x34] ++ [x56; x78; x9a])
    /\ nth 4 (Slice.backing s') x00
       = nth 1 ([x01; x12; x34] ++ [x56; x78; x9a]) x00.
Proof.
  apply (X6_reversal_reaches_spare_capacity [x01; x12; x34] [x56; x78; x9a]);
    simpl; lia.
Defined.

(** ** What the fields keep of bytes 18, 19 and 21 *)

Lemma byte_19_of_fields (b : byte) :
  u8 b
  = (if Z.land (u8 b) 0x01 =? 0 then 0 else 1)
    + 2 * Z.land (Z.shiftr (u8 b) 1) 0x07
    + 16 * (wrap8 (Z.land (Z.shiftr (u8 b) 4) 0x03 + 3) - 3)
    + 64 * (wrap8 (Z.land (Z.shiftr (u8 b) 6) 0x03 + 4) - 4).
Proof. destruct b; reflexivity. Qed.

(** X7: the four fields decoded from byte 19 lose nothing of it: the byte
    is [BatteryOK] (bit 0, inverted), [VirtualCoreIndex] (bits 1-3),
    [VirtualSurfaceIndex - 3] (bits 4-5) and [VirtualAmbientIndex - 4]
    (bits 6-7) put back together. *)
Theorem X7_byte_19_round_trip (raw spare : list byte) :
  (22 <= List.length raw)%nat ->
  exists p s',
    run raw spare = (Returned p, s')
    /\ byteAt raw 19
       = (if BatteryOK p then 0 else 1)
         + 2 * VirtualCoreIndex p
         + 16 * (VirtualSurfaceIndex p - 3)
         + 64 * (VirtualAmbientIndex p - 4).
Proof.
  intros H. do 2 eexists.
  split; [apply ExtractCombustionPacket_returns; assumption|].
  cbn [BatteryOK VirtualCoreIndex VirtualSurfaceIndex VirtualAmbientIndex
       decoded].
  unfold byteAt. apply byte_19_of_fields.
Qed.

Lemma X7_byte_19_round_trip_witness :
  exists p s',
    run sampleInstantRead [] = (Returned p, s')
    /\ byteAt sampleInstantRead 19
       = (if BatteryOK p then 0 else 1)
         + 2 * VirtualCoreIndex p
         + 16 * (VirtualSurfaceIndex p - 3)
         + 64 * (VirtualAmbientIndex p - 4).
Proof.
  apply (X7_byte_19_round_trip sampleInstantRead []). simpl. lia.
Defined.

Lemma byte_21_of_flags (b : byte) :
  u8 b
  = flags_value
      (map (fun m => Z.land (u8 b) m =? m) [1; 2; 4; 8; 16; 32; 64; 128]).
Proof. destruct b; reflexivity. Qed.

(** X8: the eight overheating flags are byte 21 bit for bit: read as a
    binary number with [Overheating[0]] least significant, they give
    byte 21 back. *)
Theorem X8_overheating_round_trip (raw spare : list byte) :
  (22 <= List.length raw)%nat ->
  exists p s',
    run raw spare = (Returned p, s')
    /\ flags_value (Overheating p) = byteAt raw 21.
Proof.
  intros H. do 2 eexists.
  split; [apply ExtractCombustionPacket_returns; assumption|].
  cbn [Overheating decoded]. unfold byteAt.
  symmetry. apply byte_21_of_flags.
Qed.

Lemma X8_overheating_round_trip_witness :
  exists p s',
    run sampleNormal [] = (Returned p, s')
    /\ flags_value (Overheating p) = byteAt sampleNormal 21.
Proof.
  apply (X8_overheating_round_trip sampleNormal []). simpl. lia.
Defined.

Lemma byte_18_fields (b : byte) :
  Z.land (u8 b) 0x03 = u8 b mod 4
  /\ Z.land (Z.shiftr (u8 b) 2) 0x70 = 16 * (u8 b / 64).
Proof. destruct b; split; reflexivity. Qed.

(** X9: of byte 18 the packet keeps bits 0-1 as [Mode] and bits 6-7 as
    [ColorID] (times 16), and nothing else: [ProbeID] is 0, and two buffers
    that agree on bytes 0-17, 19 and 21 and on bits 0-1 and 6-7 of byte 18
    decode to the same packet, so bits 2-5 of byte 18 reach no field.  The
    value stored as color id is thus read from the two top bits of the
    byte. *)
Theorem X9_byte_18_bits_kept (raw1 spare1 raw2 spare2 : list byte) :
  (22 <= List.length raw1)%nat ->
  (22 <= List.length raw2)%nat ->
  (forall i, (i <= 19 \/ i = 21)%nat -> i <> 18%nat ->
             nth i raw1 x00 = nth i raw2 x00) ->
  byteAt raw1 18 mod 4 = byteAt raw2 18 mod 4 ->
  byteAt raw1 18 / 64 = byteAt raw2 18 / 64 ->
  exists p s1 s2,
    run raw1 spare1 = (Returned p, s1)
    /\ run raw2 spare2 = (Returned p, s2)
    /\ Mode p = byteAt raw1 18 mod 4
    /\ ColorID p = 16 * (byteAt raw1 18 / 64)
    /\ ProbeID p = 0.
Proof.
  intros H1 H2 Hagree Hmod Hdiv.
  destruct (byte_18_fields (nth 18 raw1 x00)) as [Hm1 Hc1].
  destruct (byte_18_fields (nth 18 raw2 x00)) as [Hm2 Hc2].
  destruct (color_probe_values (nth 18 raw1 x00)) as (Hp1 & _).
  destruct (color_probe_values (nth 18 raw2 x00)) as (Hp2 & _).
  cbv zeta in Hp1, Hp2.
  assert (Hsame : decoded raw1 = decoded raw2).
  { unfold decoded, rawReadings, byteAt in *.
    rewrite Hm1, Hc1, Hp1, Hm2, Hc2, Hp2, Hmod, Hdiv.
    remember (nth 18 raw1 x00) as b1 eqn:Eb1. clear Eb1.
    rewrite !Hagree by lia. reflexivity. }
  exists (decoded raw1). do 2 eexists.
  split; [apply ExtractCombustionPacket_returns; assumption|].
  split; [rewrite Hsame; apply ExtractCombustionPacket_returns; assumption|].
  cbn [Mode ColorID ProbeID decoded]. unfold byteAt.
  repeat split; assumption.
Qed.

Lemma X9_byte_18_bits_kept_witness :
  exists p s1 s2,
    run sampleNormal [] = (Returned p, s1)
    /\ run (firstn 18 sampleNormal ++ xc0 :: skipn 19 sampleNormal) []
       = (Returned p, s2)
    /\ Mode p = byteAt sampleNormal 18 mod 4
    /\ ColorID p = 16 * (byteAt sampleNormal 18 / 64)
    /\ ProbeID p = 0.
Proof.
  apply (X9_byte_18_bits_kept sampleNormal []
           (firstn 18 sampleNormal ++ xc0 :: skipn 19 sampleNormal) []);
    [simpl; lia | simpl; lia | | reflexivity | reflexivity].
  intros i Hi Hne.
  do 18 (destruct i as [|i]; [reflexivity|]).
  destruct i as [|i]; [contradiction|].
  destruct i as [|i]; [reflexivity|].
  destruct i as [|i]; [lia|].
  destruct i as [|i]; [reflexivity|]. lia.
Defined.

(** ** The serial number identifies bytes 1-4 *)

Lemma u8_injective (a b : byte) : u8 a = u8 b -> a = b.
Proof.
  unfold u8. intros H. apply N2Z.inj in H.
  pose proof (Byte.of_to_N a) as Ha. rewrite H, Byte.of_to_N in Ha.
  congruence.
Qed.

Lemma EncodeToString_injective (l1 l2 : list byte) :
  hex.EncodeToString l1 = hex.EncodeToString l2 -> l1 = l2.
Proof.
  intros H. apply (f_equal hex_pairs) in H.
  rewrite !EncodeToString_pairs in H.
  revert l2 H. induction l1 as [|a l1 IH]; intros [|b l2] H;
    try discriminate; [reflexivity|].
  cbn [map] in H. injection H as Hab Hrest.
  f_equal; [apply u8_injective; assumption | apply IH; assumption].
Qed.

(** X10: two buffers have the same serial number exactly when they agree
    on bytes 1 to 4: the hex encoding merges no two serial numbers. *)
Theorem X10_serial_number_injective (raw1 spare1 raw2 spare2 : list byte) :
  (22 <= List.length raw1)%nat ->
  (22 <= List.length raw2)%nat ->
  exists p1 s1 p2 s2,
    run raw1 spare1 = (Returned p1, s1)
    /\ run raw2 spare2 = (Returned p2, s2)
    /\ (SerialNumber p1 = SerialNumber p2
        <-> forall i, (1 <= i <= 4)%nat -> nth i raw1 x00 = nth i raw2 x00).
Proof.
  intros H1 H2. do 4 eexists.
  split; [apply ExtractCombustionPacket_returns; assumption|].
  split; [apply ExtractCombustionPacket_returns; assumption|].
  cbn [SerialNumber decoded]. split.
  - intros Heq. apply EncodeToString_injective in Heq.
    injection Heq as E4 E3 E2 E1.
    intros i Hi.
    destruct i as [|[|[|[|[|i]]]]]; try lia; assumption.
  - intros Hagree.
    rewrite (Hagree 1%nat), (Hagree 2%nat), (Hagree 3%nat), (Hagree 4%nat)
      by lia.
    reflexivity.
Qed.

Lemma X10_serial_number_injective_witness :
  exists p1 s1 p2 s2,
    run sampleNormal [] = (Returned p1, s1)
    /\ run sampleAllOnes [] = (Returned p2, s2)
    /\ (SerialNumber p1 = SerialNumber p2
        <-> forall i, (1 <= i <= 4)%nat ->
                      nth i sampleNormal x00 = nth i sampleAllOnes x00).
Proof.
  apply (X10_serial_number_injective sampleNormal [] sampleAllOnes []);
    simpl; lia.
Defined.

(** ** The conversion over the 13-bit range *)

Lemma SFltb_trans (x y z : spec_float) :
  SFltb x y = true -> SFltb y z = true -> SFltb x z = true.
Proof.
  unfold SFltb, SFcompare.
  destruct x as [sx|sx| |sx mx ex], y as [sy|sy| |sy my ey],
    z as [sz|sz| |sz mz ez];
    try discriminate;
    try (destruct sx, sy, sz; (discriminate || reflexivity));
    try (destruct sx, sy; (discriminate || reflexivity));
    try (destruct sx, sz; (discriminate || reflexivity));
    try (destruct sy, sz; (discriminate || reflexivity)).
  all: change (Pos.compare_cont Eq mx my) with (Pos.compare mx my);
    change (Pos.compare_cont Eq my mz) with (Pos.compare my mz);
    change (Pos.compare_cont Eq mx mz) with (Pos.compare mx mz);
    destruct sx, sy, sz; try discriminate; try reflexivity;
    destruct (Z.compare_spec ex ey), (Z.compare_spec ey ez),
      (Z.compare_spec ex ez);
    try discriminate; try reflexivity; try lia; subst;
    destruct (Pos.compare_spec mx my), (Pos.compare_spec my mz),
      (Pos.compare_spec mx mz);
    cbn; try discriminate; try reflexivity; try lia.
Qed.

Lemma fromRawTemp_next (raw : Z) :
  0 <= raw -> raw + 1 < 2 ^ 13 ->
  SFltb (fromRawTemp raw) (fromRawTemp (raw + 1)) = true.
Proof.
  intros H0 H1.
  assert (Hall : forallb (fun r => SFltb (fromRawTemp r) (fromRawTemp (r + 1)))
                   (map Z.of_nat (seq 0 (Z.to_nat 8191))) = true)
    by (vm_compute; reflexivity).
  rewrite forallb_forall in Hall. apply Hall.
  replace raw with (Z.of_nat (Z.to_nat raw)) by lia.
  apply in_map, in_seq. change (2 ^ 13) with 8192 in H1. lia.
Qed.

(** X11: on 13-bit raw values [fromRawTemp] is strictly increasing: a
    larger raw reading always decodes to a larger temperature, so the
    rounding of [float32] merges no two readings. *)
Theorem X11_fromRawTemp_strictly_increasing (r1 r2 : Z) :
  0 <= r1 -> r1 < r2 -> r2 < 2 ^ 13 ->
  SFltb (fromRawTemp r1) (fromRawTemp r2) = true.
Proof.
  intros H0 Hlt Hmax.
  replace r2 with (r1 + 1 + Z.of_nat (Z.to_nat (r2 - r1 - 1))) in * by lia.
  induction (Z.to_nat (r2 - r1 - 1)) as [|n IH].
  - rewrite Z.add_0_r. apply fromRawTemp_next; lia.
  - apply SFltb_trans with (y := fromRawTemp (r1 + 1 + Z.of_nat n)).
    + apply IH; lia.
    + replace (r1 + 1 + Z.of_nat (S n)) with (r1 + 1 + Z.of_nat n + 1) by lia.
      apply fromRawTemp_next; lia.
Qed.

Lemma X11_fromRawTemp_strictly_increasing_witness :
  SFltb (fromRawTemp 399) (fromRawTemp 401) = true.
Proof.
  apply (X11_fromRawTemp_strictly_increasing 399 401); [lia | lia |].
  change (2 ^ 13) with 8192. lia.
Defined.

Lemma fromRawTemp_bounds (raw : Z) :
  0 <= raw < 2 ^ 13 ->
  is_finite (fromRawTemp raw) = true
  /\ SFleb (float32.of_Z (-20)) (fromRawTemp raw) = true
  /\ SFleb (fromRawTemp raw) (float32.of_Z 390) = true.
Proof.
  intros H.
  assert (Hall : forallb
                   (fun r =>
                      is_finite (fromRawTemp r)
                      && SFleb (float32.of_Z (-20)) (fromRawTemp r)
                      && SFleb (fromRawTemp r) (float32.of_Z 390))
                   all_raw_values = true)
    by (vm_compute; reflexivity).
  rewrite forallb_forall in Hall.
  specialize (Hall raw).
  rewrite !andb_true_iff in Hall. rewrite <- and_assoc. apply Hall.
  replace raw with (Z.of_nat (Z.to_nat raw)) by lia.
  apply in_map, in_seq. change (2 ^ 13) with 8192 in H. lia.
Qed.

(** X12: every temperature of a decoded packet is a finite number (never
    an infinity or a NaN) between -20 and 390 degrees. *)
Theorem X12_temperatures_finite_and_bounded (raw spare : list byte) :
  (22 <= List.length raw)%nat ->
  exists p s',
    run raw spare = (Returned p, s')
    /\ Forall (fun t => is_finite t = true
                        /\ SFleb (float32.of_Z (-20)) t = true
                        /\ SFleb t (float32.of_Z 390) = true) (Temps p).
Proof.
  intros H. do 2 eexists.
  split; [apply ExtractCombustionPacket_returns; assumption|].
  assert (Hall : Forall (fun t => is_finite t = true
                        /\ SFleb (float32.of_Z (-20)) t = true
                        /\ SFleb t (float32.of_Z 390) = true)
                   (map fromRawTemp (rawReadings raw))).
  { apply Forall_map. eapply Forall_impl; [|apply rawReadings_range].
    intros r Hr. apply fromRawTemp_bounds. exact Hr. }
  cbn [Temps decoded].
  destruct (Z.land (byteAt raw 18) 3 =? CombustionModeInstantRead).
  - unfold rawReadings in *. cbn [firstn map] in *.
    constructor; [exact (Forall_inv Hall) | constructor].
  - destruct (Z.land (byteAt raw 18) 3 =? CombustionModeNormal);
      [exact Hall | constructor].
Qed.

Lemma X12_temperatures_finite_and_bounded_witness :
  exists p s',
    run sampleAllOnes [] = (Returned p, s')
    /\ Forall (fun t => is_finite t = true
                        /\ SFleb (float32.of_Z (-20)) t = true
                        /\ SFleb t (float32.of_Z 390) = true) (Temps p).
Proof.
  apply (X12_temperatures_finite_and_bounded sampleAllOnes []). simpl. lia.
Defined.

(** X13: in InstantRead mode the single temperature comes from the least
    significant 13-bit field of the region, the one Normal mode stores as
    [Temps[0]]: on the wire, byte 5 and the five low bits of byte 6. *)
Theorem X13_instant_read_field (raw spare : list byte) :
  (22 <= List.length raw)%nat ->
  Z.land (byteAt raw 18) 0x03 = CombustionModeInstantRead ->
  exists p s',
    run raw spare = (Returned p, s')
    /\ Temps p = [fromRawTemp (packedSlot raw 0)]
    /\ packedSlot raw 0 = 256 * (byteAt raw 6 mod 32) + byteAt raw 5.
Proof.
  intros H Hmode. do 2 eexists.
  split; [apply ExtractCombustionPacket_returns; assumption|].
  pose proof (packedSlot_reading raw 0 H) as Hslot.
  change (Z.of_nat 0) with 0 in Hslot.
  split.
  - cbn [Temps decoded]. rewrite Hmode. rewrite Hslot. reflexivity.
  - rewrite Hslot. cbn [rawReadings nth]. apply rawT1_sum.
Qed.

Lemma X13_instant_read_field_witness :
  exists p s',
    run sampleInstantRead [] = (Returned p, s')
    /\ Temps p = [fromRawTemp (packedSlot sampleInstantRead 0)]
    /\ packedSlot sampleInstantRead 0
       = 256 * (byteAt sampleInstantRead 6 mod 32) + byteAt sampleInstantRead 5.
Proof.
  apply (X13_instant_read_field sampleInstantRead []);
    [simpl; lia | reflexivity].
Defined.

(** ** onScan *)

Lemma ExtractCombustionPacket_panics_short (raw spare : list byte) :
  (List.length raw < 22)%nat ->
  exists e s', run raw spare = (Panicked e, s') /\ outOfReach e s'.
Proof.
  intros H. destruct (Nat.lt_ge_cases (List.length raw) 19).
  - apply ExtractCombustionPacket_panics_below_19; assumption.
  - apply ExtractCombustionPacket_panics_19_to_21; lia.
Qed.

Section OnScan.

Variable T : Type.
Variable packetHandler : option (CombustionPacket -> outcome T).

(** X14: [onScan] looks at the first manufacturer-data element only.  With
    no element, or with a first element of another company, nothing is
    decoded, the handler is not called and no buffer is touched, even when
    a later element carries Combustion's identifier. *)
Theorem X14_onScan_ignores_other_companies (md : list ManufacturerDataElement) :
  match md with
  | [] => True
  | first :: _ => CompanyID first <> CombustionManufacuterID
  end ->
  onScan packetHandler md = (Returned None, md).
Proof.
  intros H. destruct md as [|first others]; [reflexivity|].
  cbn [onScan].
  destruct (Z.eqb_spec (CompanyID first) CombustionManufacuterID);
    [contradiction | reflexivity].
Qed.

(** X15: a first element with Combustion's identifier and at least 22 bytes
    is decoded and its buffer is left reversed, whether a handler is set or
    not; a handler, when set, is called once, with the decoded packet, and
    its result or panic is the result of [onScan]. *)
Theorem X15_onScan_dispatches_decoded_packet
    (raw spare : list byte) (others : list ManufacturerDataElement) :
  (22 <= List.length raw)%nat ->
  exists p,
    run raw spare = (Returned p, Slice.mk (reversed raw) spare)
    /\ onScan packetHandler
         (mkElement CombustionManufacuterID (Slice.mk raw spare) :: others)
       = (match packetHandler with
          | Some handler =>
              match handler p with
              | Returned t => Returned (Some t)
              | Panicked e => Panicked e
              end
          | None => Returned None
          end,
          mkElement CombustionManufacuterID (Slice.mk (reversed raw) spare)
            :: others).
Proof.
  intros H. exists (decoded raw).
  pose proof (ExtractCombustionPacket_returns raw spare H) as Hrun.
  split; [exact Hrun|].
  unfold run in Hrun. cbn [onScan CompanyID Data].
  rewrite Z.eqb_refl, Hrun.
  destruct packetHandler as [handler|]; [|reflexivity].
  destruct (handler (decoded raw)); reflexivity.
Qed.

(** X16: a first element with Combustion's identifier and fewer than 22
    bytes makes [onScan] panic with the decoder's bounds error; the handler
    is not called. *)
Theorem X16_onScan_panics_on_short_payload
    (raw spare : list byte) (others : list ManufacturerDataElement) :
  (List.length raw < 22)%nat ->
  exists e s',
    run raw spare = (Panicked e, s')
    /\ outOfReach e s'
    /\ onScan packetHandler
         (mkElement CombustionManufacuterID (Slice.mk raw spare) :: others)
       = (Panicked e, mkElement CombustionManufacuterID s' :: others).
Proof.
  intros H.
  destruct (ExtractCombustionPacket_panics_short raw spare H)
    as (e & s' & Hrun & Hreach).
  exists e, s'. split; [exact Hrun|]. split; [exact Hreach|].
  unfold run in Hrun. cbn [onScan CompanyID Data].
  rewrite Z.eqb_refl, Hrun. reflexivity.
Qed.

End OnScan.

Lemma X14_onScan_ignores_other_companies_witness :
  onScan (Some mainCallback) sampleForeign = (Returned None, sampleForeign).
Proof.
  apply (X14_onScan_ignores_other_companies _ (Some mainCallback) sampleForeign).
  discriminate.
Defined.

Lemma X15_onScan_dispatches_decoded_packet_witness :
  exists p,
    run sampleNormal [] = (Returned p, Slice.mk (reversed sampleNormal) [])
    /\ onScan (Some mainCallback)
         [mkElement CombustionManufacuterID (Slice.mk sampleNormal [])]
       = (match mainCallback p with
          | Returned t => Returned (Some t)
          | Panicked e => Panicked e
          end,
          [mkElement CombustionManufacuterID
             (Slice.mk (reversed sampleNormal) [])]).
Proof.
  apply (X15_onScan_dispatches_decoded_packet _ (Some mainCallback)
           sampleNormal [] []).
  simpl. lia.
Defined.

Lemma X16_onScan_panics_on_short_payload_witness :
  exists e s',
    run sampleShort [] = (Panicked e, s')
    /\ outOfReach e s'
    /\ onScan (Some mainCallback)
         [mkElement CombustionManufacuterID (Slice.mk sampleShort [])]
       = (Panicked e, [mkElement CombustionManufacuterID s']).
Proof.
  apply (X16_onScan_panics_on_short_payload _ (Some mainCallback)
           sampleShort [] []).
  simpl. lia.
Defined.

(** ** The callback of the example program *)

Lemma temps_index_in_range (temps : list float32.t) (i : Z) :
  0 <= i < Z.of_nat (List.length temps) ->
  temps_index temps i = Returned (nth (Z.to_nat i) temps float32.zero).
Proof.
  intros H. unfold temps_index.
  destruct (nth_error temps (Z.to_nat i)) eqn:E.
  - rewrite (nth_error_nth _ _ _ E). reflexivity.
  - apply nth_error_None in E. lia.
Qed.

Lemma mainCallback_decoded (raw : list byte) :
  exists out,
    mainCallback (decoded raw) = Returned out
    /\ (out = None <-> Mode (decoded raw) <> CombustionModeNormal)
    /\ forall a, out = Some a ->
         let p := decoded raw in
         let temp i := nth (Z.to_nat i) (Temps p) float32.zero in
         coreIndex a = VirtualCoreIndex p
         /\ coreFahrenheit a = toFahrenheit (temp (VirtualCoreIndex p))
         /\ surfaceIndex a = VirtualSurfaceIndex p
         /\ surfaceFahrenheit a = toFahrenheit (temp (VirtualSurfaceIndex p))
         /\ ambientIndex a = VirtualAmbientIndex p
         /\ ambientFahrenheit a = toFahrenheit (temp (VirtualAmbientIndex p)).
Proof.
  pose proof (virtual_sensor_ranges (nth 19 raw x00)) as Hr. cbv zeta in Hr.
  destruct Hr as (Hc & Hs & _ & Ha & _).
  unfold mainCallback. cbv zeta.
  cbn [Temps Mode VirtualCoreIndex VirtualSurfaceIndex VirtualAmbientIndex
       decoded].
  fold (byteAt raw 19) in Hc, Hs, Ha.
  unfold CombustionModeInstantRead, CombustionModeNormal.
  destruct (Z.eqb_spec (Z.land (byteAt raw 18) 3) 1) as [E1|E1].
  - eexists. split; [reflexivity|]. split; [|discriminate].
    split; [lia | reflexivity].
  - destruct (Z.eqb_spec (Z.land (byteAt raw 18) 3) 0) as [E0|E0].
    + cbn [rawReadings map List.length Z.of_nat Pos.of_succ_nat Pos.succ Z.ltb
           Z.compare Pos.compare Pos.compare_cont].
      rewrite !temps_index_in_range by (cbn [List.length]; lia).
      eexists. split; [reflexivity|].
      split; [split; [discriminate|congruence]|].
      intros a Ha'. injection Ha' as <-.
      cbn [coreIndex coreFahrenheit surfaceIndex surfaceFahrenheit
           ambientIndex ambientFahrenheit].
      repeat split.
    + eexists. split; [reflexivity|]. split; [|discriminate].
      split; [intros _; exact E0 | reflexivity].
Qed.

(** X17: on every packet the decoder returns, the callback of the example
    program returns too: its three index expressions never go out of range.
    It prints exactly in Normal mode, and then passes the three virtual
    indices with the Fahrenheit value of the temperature each one selects. *)
Theorem X17_example_callback_never_panics (raw spare : list byte) :
  (22 <= List.length raw)%nat ->
  exists p s' out,
    run raw spare = (Returned p, s')
    /\ mainCallback p = Returned out
    /\ (out = None <-> Mode p <> CombustionModeNormal)
    /\ forall a, out = Some a ->
         let temp i := nth (Z.to_nat i) (Temps p) float32.zero in
         coreIndex a = VirtualCoreIndex p
         /\ coreFahrenheit a = toFahrenheit (temp (VirtualCoreIndex p))
         /\ surfaceIndex a = VirtualSurfaceIndex p
         /\ surfaceFahrenheit a = toFahrenheit (temp (VirtualSurfaceIndex p))
         /\ ambientIndex a = VirtualAmbientIndex p
         /\ ambientFahrenheit a = toFahrenheit (temp (VirtualAmbientIndex p)).
Proof.
  intros H.
  destruct (mainCallback_decoded raw) as (out & Hcb & Hnone & Hargs).
  exists (decoded raw), (Slice.mk (reversed raw) spare), out.
  split; [apply ExtractCombustionPacket_returns; assumption|].
  split; [exact Hcb|]. split; [exact Hnone|].
  intros a Ha. exact (Hargs a Ha).
Qed.

Lemma X17_example_callback_never_panics_witness :
  exists p s' out,
    run sampleNormal [] = (Returned p, s')
    /\ mainCallback p = Returned out
    /\ (out = None <-> Mode p <> CombustionModeNormal)
    /\ forall a, out = Some a ->
         let temp i := nth (Z.to_nat i) (Temps p) float32.zero in
         coreIndex a = VirtualCoreIndex p
         /\ coreFahrenheit a = toFahrenheit (temp (VirtualCoreIndex p))
         /\ surfaceIndex a = VirtualSurfaceIndex p
         /\ surfaceFahrenheit a = toFahrenheit (temp (VirtualSurfaceIndex p))
         /\ ambientIndex a = VirtualAmbientIndex p
         /\ ambientFahrenheit a = toFahrenheit (temp (VirtualAmbientIndex p)).
Proof.
  apply (X17_example_callback_never_panics sampleNormal []). simpl. lia.
Defined.

(** X18: over the whole 13-bit range, the Fahrenheit value the example
    program prints for a raw reading is a finite number within 2^-13
    degrees of the exact [(raw * 0.05 - 20) * 9 / 5 + 32]: the five
    roundings of the two conversions do not add up to a visible error at
    the two decimals printed. *)
Theorem X18_fahrenheit_accuracy (raw : Z) :
  0 <= raw < 2 ^ 13 ->
  fahrenheit_within_tolerance raw (toFahrenheit (fromRawTemp raw)) = true.
Proof.
  intros H.
  assert (Hall : forallb
                   (fun r =>
                      fahrenheit_within_tolerance r (toFahrenheit (fromRawTemp r)))
                   all_raw_values = true)
    by (vm_compute; reflexivity).
  rewrite forallb_forall in Hall. apply Hall.
  replace raw with (Z.of_nat (Z.to_nat raw)) by lia.
  apply in_map, in_seq. change (2 ^ 13) with 8192 in H. lia.
Qed.

Lemma X18_fahrenheit_accuracy_witness :
  fahrenheit_within_tolerance 800 (toFahrenheit (fromRawTemp 800)) = true.
Proof.
  apply (X18_fahrenheit_accuracy 800). change (2 ^ 13) with 8192. lia.
Defined.

(** X19: the example program, scanning: [onScan] with the example's
    callback as handler panics exactly when the first manufacturer-data
    element carries Combustion's identifier with fewer than 22 bytes; on
    every other advertisement it returns. *)
Theorem X19_example_scan_panics_iff_short_payload
    (md : list ManufacturerDataElement) :
  (exists e, fst (onScan (Some mainCallback) md) = Panicked e)
  <-> match md with
      | [] => False
      | first :: _ =>
          CompanyID first = CombustionManufacuterID
          /\ (Slice.len (Data first) < 22)%nat
      end.
Proof.
  destruct md as [|[company [raw spare]] others].
  - split; [intros [e He]; discriminate He | contradiction].
  - cbn [onScan CompanyID Data]. unfold Slice.len. cbn [Slice.elems].
    destruct (Z.eqb_spec company CombustionManufacuterID) as [-> | Hne].
    + fold (run raw spare).
      destruct (Nat.lt_ge_cases (List.length raw) 22) as [Hlt | Hge].
      * destruct (ExtractCombustionPacket_panics_short raw spare Hlt)
          as (e & s' & Hrun & _).
        rewrite Hrun. cbn [fst].
        split; [intros _; split; [reflexivity | exact Hlt]|].
        intros _. exists e. reflexivity.
      * rewrite ExtractCombustionPacket_returns by assumption.
        destruct (mainCallback_decoded raw) as (out & Hcb & _).
        rewrite Hcb. cbn [fst].
        split; [intros [e He]; discriminate He | intros [_ Hlt]; lia].
    + cbn [fst].
      split; [intros [e He]; discriminate He | intros [Heq _]; contradiction].
Qed.
